(** * Intrusion-detection dashboard: the rule engine of [backend/analyzer.py]

    A shallow embedding of [NetworkAnalyzer]: the CSV parser, the four
    detection rules, the orchestrator [analyze_logs] and the summary, followed
    by the properties of the specification that concern them.

    Modelling conventions.
    - A pandas [DataFrame] whose columns have the dtypes of the reference log
      format (strings for [source_ip], [destination_ip] and [protocol], int64
      for [port] and [packet_size], datetimes for [timestamp]) is a list of
      rows in index order.  Integers are [Z]; time points are [Z] seconds
      since 1970-01-01 00:00:00, without the range limits of [datetime64].
    - Python exceptions are the [Raise] outcome of a small error monad.
    - [dict] and [set] of the summary are stdpp's [gmap] and [gset]. *)

From Stdlib Require Import ZArith Lia Ascii String.
From stdpp Require Import base tactics option list sorting gmap strings pretty.

Local Open Scope string_scope.
Local Open Scope list_scope.
Local Open Scope Z_scope.

(** ** Exceptions and the error monad *)

Inductive exn :=
  | ValueError (msg : string)      (* raise ValueError(msg) *)
  | DateParseError (cell : string) (* pd.to_datetime on an unparsable cell *)
  | IndexError.                    (* .iloc[0] on an empty selection *)

Inductive result (A : Type) :=
  | Ok (a : A)
  | Raise (e : exn).
Arguments Ok {A} a.
Arguments Raise {A} e.

Definition bind {A B} (m : result A) (k : A → result B) : result B :=
  match m with
  | Ok a => k a
  | Raise e => Raise e
  end.

Notation "x ←ᵣ m ; k" := (bind m (λ x, k))
  (at level 20, m at level 100, k at level 200, right associativity,
   format "x  ←ᵣ  m ;  '/' k").


(** What a caller that catches the exception is left with. *)
Definition returned {A} (m : result (list A)) : list A :=
  match m with Ok l => l | Raise _ => [] end.

(** ** Time points and [strftime("%Y-%m-%d %H:%M:%S")] *)

Module Time.

(** Proleptic Gregorian calendar, days counted from 1970-01-01. *)
Definition civil_from_days (days : Z) : Z * Z * Z :=
  let z := days + 719468 in
  let era := z / 146097 in
  let doe := z - era * 146097 in
  let yoe := (doe - doe / 1460 + doe / 36524 - doe / 146096) / 365 in
  let doy := doe - (365 * yoe + yoe / 4 - yoe / 100) in
  let mp := (5 * doy + 2) / 153 in
  let d := doy - (153 * mp + 2) / 5 + 1 in
  let m := if mp <? 10 then mp + 3 else mp - 9 in
  let y := yoe + era * 400 + (if m <=? 2 then 1 else 0) in
  (y, m, d).

Definition days_from_civil (y m d : Z) : Z :=
  let y' := if m <=? 2 then y - 1 else y in
  let era := y' / 400 in
  let yoe := y' - era * 400 in
  let mp := if 2 <? m then m - 3 else m + 9 in
  let doy := (153 * mp + 2) / 5 + d - 1 in
  let doe := yoe * 365 + yoe / 4 - yoe / 100 + doy in
  era * 146097 + doe - 719468.

Definition digit (n : Z) : string :=
  String (Ascii.ascii_of_nat (48 + Z.to_nat (n `mod` 10))) "".

Definition pad2 (n : Z) : string := digit (n / 10) +:+ digit n.
Definition pad4 (n : Z) : string := pad2 (n / 100) +:+ pad2 n.

Definition strftime (t : Z) : string :=
  let '(y, m, d) := civil_from_days (t / 86400) in
  let s := t `mod` 86400 in
  pad4 y +:+ "-" +:+ pad2 m +:+ "-" +:+ pad2 d +:+ " " +:+
  pad2 (s / 3600) +:+ ":" +:+ pad2 (s `mod` 3600 / 60) +:+ ":" +:+ pad2 (s `mod` 60).

Definition is_leap (y : Z) : bool :=
  (y `mod` 4 =? 0) && (negb (y `mod` 100 =? 0) || (y `mod` 400 =? 0)).

Definition days_in_month (y m : Z) : Z :=
  if m =? 2 then (if is_leap y then 29 else 28)
  else if (m =? 4) || (m =? 6) || (m =? 9) || (m =? 11) then 30
  else 31.

(** A reader of the reference format [YYYY-MM-DD HH:MM:SS]. *)
Definition digit_val (c : Ascii.ascii) : option Z :=
  let n := Z.of_nat (Ascii.nat_of_ascii c) in
  if decide (48 ≤ n ≤ 57) then Some (n - 48) else None.

Fixpoint number (cs : list Ascii.ascii) (acc : Z) : option Z :=
  match cs with
  | [] => Some acc
  | c :: cs' => d ← digit_val c; number cs' (10 * acc + d)
  end.

Definition field (cs : list Ascii.ascii) (from len : nat) : option Z :=
  let part := take len (drop from cs) in
  if decide (length part = len) then number part 0 else None.

Definition sep (cs : list Ascii.ascii) (at_ : nat) (c : Ascii.ascii) : option unit :=
  if decide (cs !! at_ = Some c) then Some () else None.

Definition iso_to_datetime (s : string) : option Z :=
  let cs := String.list_ascii_of_string s in
  if decide (length cs = 19%nat) then
    y ← field cs 0 4; _ ← sep cs 4 "-"%char;
    m ← field cs 5 2; _ ← sep cs 7 "-"%char;
    d ← field cs 8 2; _ ← sep cs 10 " "%char;
    hh ← field cs 11 2; _ ← sep cs 13 ":"%char;
    mm ← field cs 14 2; _ ← sep cs 16 ":"%char;
    ss ← field cs 17 2;
    if decide (1 ≤ m ≤ 12 ∧ 1 ≤ d ≤ days_in_month y m ∧ hh < 24 ∧ mm < 60 ∧ ss < 60) then
      Some (days_from_civil y m d * 86400 + hh * 3600 + mm * 60 + ss)
    else None
  else None.

End Time.

(** ** Rows, frames and alerts *)

(** One row of the parsed frame ([timestamp] already a datetime). *)
Record Row := {
  timestamp : Z;
  source_ip : string;
  destination_ip : string;
  port : Z;
  protocol : string;
  packet_size : Z
}.

Abbreviation DataFrame := (list Row).

(** One row as [pd.read_csv] delivers it: the timestamp cell is still text. *)
Record RawRow := {
  raw_timestamp : string;
  raw_source_ip : string;
  raw_destination_ip : string;
  raw_port : Z;
  raw_protocol : string;
  raw_packet_size : Z
}.

(** The frame read from the file: its header ([df.columns]) and its rows.  A
    field of a row whose column is not in the header is never read. *)
Record RawFrame := {
  raw_columns : list string;
  raw_rows : list RawRow
}.

(** The alert dictionaries built by the detectors. *)
Record Alert := {
  alert_timestamp : string;
  alert_source_ip : string;
  alert_port : Z;
  threat_type : string;
  description : string
}.

#[global] Instance Row_eq_dec : EqDecision Row.
Proof. solve_decision. Defined.
#[global] Instance Alert_eq_dec : EqDecision Alert.
Proof. solve_decision. Defined.

(** ** The analyzer object: [NetworkAnalyzer.__init__] *)

Record NetworkAnalyzer := {
  allowed_ports : gset Z;
  connection_threshold : Z;
  time_window : Z
}.

Definition init : NetworkAnalyzer := {|
  allowed_ports := {[22; 80; 443]};
  connection_threshold := 10;
  time_window := 60
|}.

(** ** [parse_csv_logs] *)

Definition required_columns : list string :=
  ["timestamp"; "source_ip"; "destination_ip"; "port"; "protocol"; "packet_size"].

Fixpoint join (sep : string) (l : list string) : string :=
  match l with
  | [] => ""
  | [x] => x
  | x :: l' => x +:+ sep +:+ join sep l'
  end.

(** [str] of a Python list of plain identifiers, as the f-string prints it. *)
Definition py_list_repr (l : list string) : string :=
  "[" +:+ join ", " ((λ c, "'" +:+ c +:+ "'") <$> l) +:+ "]".

Definition missing_columns_message (missing_columns : list string) : string :=
  "Missing required columns: " +:+ py_list_repr missing_columns.

Section Parser.

(** [pd.to_datetime] on one cell; [None] when pandas rejects the text. *)
Variable to_datetime : string → option Z.

Definition convert_row (r : RawRow) : result Row :=
  match to_datetime (raw_timestamp r) with
  | Some t =>
      Ok {| timestamp := t;
            source_ip := raw_source_ip r;
            destination_ip := raw_destination_ip r;
            port := raw_port r;
            protocol := raw_protocol r;
            packet_size := raw_packet_size r |}
  | None => Raise (DateParseError (raw_timestamp r))
  end.

(** [df['timestamp'] = pd.to_datetime(df['timestamp'])] *)
Fixpoint convert_timestamps (rows : list RawRow) : result DataFrame :=
  match rows with
  | [] => Ok []
  | r :: rows' =>
      x ←ᵣ convert_row r;
      xs ←ᵣ convert_timestamps rows';
      Ok (x :: xs)
  end.

Definition parse_csv_logs (raw : RawFrame) : result DataFrame :=
  let missing_columns :=
    filter (λ col, col ∉ raw_columns raw) required_columns in
  match missing_columns with
  | _ :: _ => Raise (ValueError (missing_columns_message missing_columns))
  | [] => convert_timestamps (raw_rows raw)
  end.

End Parser.

(** ** The stateless rules *)

Definition suspicious_port_alert (row : Row) : Alert := {|
  alert_timestamp := Time.strftime (timestamp row);
  alert_source_ip := source_ip row;
  alert_port := port row;
  threat_type := "Suspicious Port";
  description := "Connection to non-standard port " +:+ pretty (port row) +:+
                 " detected from " +:+ source_ip row
|}.

Definition detect_suspicious_ports (self : NetworkAnalyzer) (df : DataFrame)
  : list Alert :=
  let suspicious_ports := filter (λ row, port row ∉ allowed_ports self) df in
  suspicious_port_alert <$> suspicious_ports.

(** [str.upper] on the ASCII letters. *)
Definition upper_char (c : ascii) : ascii :=
  let n := nat_of_ascii c in
  if decide (97 ≤ n ≤ 122)%nat then ascii_of_nat (n - 32) else c.

Fixpoint upper (s : string) : string :=
  match s with
  | EmptyString => EmptyString
  | String c s' => String (upper_char c) (upper s')
  end.

Definition common_protocols : list string := ["TCP"; "UDP"; "HTTP"; "HTTPS"].

Definition unusual_protocol_alert (row : Row) : Alert := {|
  alert_timestamp := Time.strftime (timestamp row);
  alert_source_ip := source_ip row;
  alert_port := port row;
  threat_type := "Unusual Protocol";
  description := "Unusual protocol '" +:+ protocol row +:+
                 "' detected from " +:+ source_ip row
|}.

Definition detect_unusual_protocols (self : NetworkAnalyzer) (df : DataFrame)
  : list Alert :=
  let unusual_protocols :=
    filter (λ row, upper (protocol row) ∉ common_protocols) df in
  unusual_protocol_alert <$> unusual_protocols.

Definition large_packet_alert (size_threshold : Z) (row : Row) : Alert := {|
  alert_timestamp := Time.strftime (timestamp row);
  alert_source_ip := source_ip row;
  alert_port := port row;
  threat_type := "Large Packet";
  description := "Large packet (" +:+ pretty (packet_size row) +:+
                 " bytes) detected from " +:+ source_ip row +:+
                 " (threshold: " +:+ pretty size_threshold +:+ ")"
|}.

Definition detect_large_packets (self : NetworkAnalyzer) (df : DataFrame)
    (size_threshold : Z) : list Alert :=
  let large_packets := filter (λ row, size_threshold < packet_size row) df in
  large_packet_alert size_threshold <$> large_packets.

(** ** The high-frequency rule *)

(** [df.sort_values('timestamp')], in one of the orders it may give:
    ascending, rows with equal timestamps kept in index order.  The results
    stated with this function use no more than that the outcome is ascending
    and holds the same rows; what depends on the order of rows with equal
    timestamps is stated in [General], for every ascending order. *)
Fixpoint insert_by_timestamp (row : Row) (sorted : list Row) : list Row :=
  match sorted with
  | [] => [row]
  | x :: sorted' =>
      if decide (timestamp row ≤ timestamp x) then row :: x :: sorted'
      else x :: insert_by_timestamp row sorted'
  end.

Definition sort_values (df : DataFrame) : DataFrame :=
  foldr insert_by_timestamp [] df.

(** [Series.unique()]: the distinct values in order of first appearance. *)
Fixpoint unique (l : list string) : list string :=
  match l with
  | [] => []
  | x :: l' => x :: filter (λ y, y ≠ x) (unique l')
  end.

(** [ip_data[(ip_data['timestamp'] >= start_time) & (ip_data['timestamp'] <= end_time)]] *)
Definition window_connections (self : NetworkAnalyzer) (ip_data : list Row)
    (start_time : Z) : list Row :=
  let end_time := start_time + time_window self in
  filter (λ row, start_time ≤ timestamp row ∧ timestamp row ≤ end_time) ip_data.

Definition high_frequency_alert (self : NetworkAnalyzer) (ip : string)
    (start_time : Z) (count : nat) (first : Row) : Alert := {|
  alert_timestamp := Time.strftime start_time;
  alert_source_ip := ip;
  alert_port := port first;
  threat_type := "High Frequency Connection";
  description := "IP " +:+ ip +:+ " made " +:+ pretty count +:+
                 " connections in 1 minute (threshold: " +:+
                 pretty (connection_threshold self) +:+ ")"
|}.

(** The inner loop [for i in range(len(ip_data))], entered at the rows [todo]
    still to be tried as window starts; it leaves at the first hit. *)
Fixpoint scan_windows (self : NetworkAnalyzer) (ip : string)
    (ip_data todo : list Row) : result (list Alert) :=
  match todo with
  | [] => Ok []
  | row :: todo' =>
      let start_time := timestamp row in
      let window := window_connections self ip_data start_time in
      if decide (connection_threshold self < Z.of_nat (length window)) then
        match window with
        | first :: _ =>
            Ok [high_frequency_alert self ip start_time (length window) first]
        | [] => Raise IndexError
        end
      else scan_windows self ip ip_data todo'
  end.

(** One turn of the outer loop, for one source address. *)
Definition scan_source (self : NetworkAnalyzer) (df_sorted : DataFrame)
    (ip : string) : result (list Alert) :=
  let ip_data := filter (λ row, source_ip row = ip) df_sorted in
  if decide (Z.of_nat (length ip_data) < connection_threshold self) then Ok []
  else scan_windows self ip ip_data ip_data.

Fixpoint scan_sources (self : NetworkAnalyzer) (df_sorted : DataFrame)
    (ips : list string) : result (list Alert) :=
  match ips with
  | [] => Ok []
  | ip :: ips' =>
      found ←ᵣ scan_source self df_sorted ip;
      more ←ᵣ scan_sources self df_sorted ips';
      Ok (found ++ more)
  end.

Definition detect_high_frequency_connections (self : NetworkAnalyzer)
    (df : DataFrame) : result (list Alert) :=
  let df_sorted := sort_values df in
  scan_sources self df_sorted (unique (source_ip <$> df)).

(** ** [analyze_logs] and [get_analysis_summary] *)

Section Orchestrator.

Variable to_datetime : string → option Z.

Definition analyze_logs (self : NetworkAnalyzer) (raw : RawFrame)
  : result (list Alert) :=
  df ←ᵣ parse_csv_logs to_datetime raw;
  let port_alerts := detect_suspicious_ports self df in
  freq_alerts ←ᵣ detect_high_frequency_connections self df;
  let protocol_alerts := detect_unusual_protocols self df in
  let packet_alerts := detect_large_packets self df 65536 in
  Ok (port_alerts ++ freq_alerts ++ protocol_alerts ++ packet_alerts).

End Orchestrator.

Record Summary := {
  total_alerts : nat;
  unique_source_ips : nat;
  threat_breakdown : gmap string nat;
  analysis_timestamp : string
}.

(** The body of [for alert in alerts]: one count more, one address noted. *)
Definition tally (acc : gmap string nat * gset string) (alert : Alert)
  : gmap string nat * gset string :=
  let '(threat_counts, source_ips) := acc in
  (<[threat_type alert := (default 0 (threat_counts !! threat_type alert) + 1)%nat]>
     threat_counts,
   source_ips ∪ {[alert_source_ip alert]}).

(** [now] stands for [datetime.now()]. *)
Definition get_analysis_summary (now : Z) (alerts : list Alert) : Summary :=
  let '(threat_counts, source_ips) := foldl tally (∅, ∅) alerts in
  {| total_alerts := length alerts;
     unique_source_ips := size source_ips;
     threat_breakdown := threat_counts;
     analysis_timestamp := Time.strftime now |}.

(** ** What the library calls leave open *)

(** The analyzer once more, for what the definitions above fix too narrowly:
    the cells of a frame are values of any kind, [pd.to_datetime] works on
    the whole timestamp column and turns a missing cell into [NaT], the
    order in which [sort_values] leaves rows of equal timestamps is not
    fixed by the source (its default algorithm is not a stable one), and
    [str.upper] knows more letters than the ASCII ones.  Here these library
    calls are parameters. *)
Module General.

(** A value of a frame read by [pd.read_csv]: an integer, a text, or a
    missing value (floating-point values other than [NaN] are left out). *)
Inductive Cell :=
  | Int (z : Z)
  | Str (s : string)
  | NaN.

(** A value of a datetime column. *)
Inductive Datetime :=
  | Timestamp (t : Z)
  | NaT.

(** One row of a frame, its timestamp of type [T]: a cell before the
    conversion, a datetime after it. *)
Record FrameRow (T : Type) := {
  timestamp_cell : T;
  source_ip_cell : Cell;
  destination_ip_cell : Cell;
  port_cell : Cell;
  protocol_cell : Cell;
  packet_size_cell : Cell
}.
Arguments timestamp_cell {T} _.
Arguments source_ip_cell {T} _.
Arguments destination_ip_cell {T} _.
Arguments port_cell {T} _.
Arguments protocol_cell {T} _.
Arguments packet_size_cell {T} _.

Definition with_timestamp {T U} (row : FrameRow T) (t : U) : FrameRow U := {|
  timestamp_cell := t;
  source_ip_cell := source_ip_cell row;
  destination_ip_cell := destination_ip_cell row;
  port_cell := port_cell row;
  protocol_cell := protocol_cell row;
  packet_size_cell := packet_size_cell row
|}.

Section Parser.

(** [pd.to_datetime] on the timestamp column: it raises, or returns a column
    of datetimes. *)
Variable to_datetime : list Cell → result (list Datetime).

(** [parse_csv_logs] on the frame with the header [columns] and the rows
    [rows]. *)
Definition parse_csv_logs (columns : list string) (rows : list (FrameRow Cell))
  : result (list (FrameRow Datetime)) :=
  let missing_columns := filter (λ col, col ∉ columns) required_columns in
  match missing_columns with
  | _ :: _ => Raise (ValueError (missing_columns_message missing_columns))
  | [] =>
      converted ←ᵣ to_datetime (timestamp_cell <$> rows);
      Ok (zip_with with_timestamp rows converted)
  end.

End Parser.

Section Detectors.

(** [df.sort_values('timestamp')] and [str.upper]. *)
Variable sort_values : DataFrame → DataFrame.
Variable str_upper : string → string.

Definition detect_high_frequency_connections (self : NetworkAnalyzer)
    (df : DataFrame) : result (list Alert) :=
  let df_sorted := sort_values df in
  scan_sources self df_sorted (unique (source_ip <$> df)).

Definition detect_unusual_protocols (self : NetworkAnalyzer) (df : DataFrame)
  : list Alert :=
  let unusual_protocols :=
    filter (λ row, str_upper (protocol row) ∉ common_protocols) df in
  unusual_protocol_alert <$> unusual_protocols.

End Detectors.

(** The record invariant of the specification on the rows of a frame. *)
Definition ConnectionRecord_invariant (row : FrameRow Datetime) : Prop :=
  (∃ t, timestamp_cell row = Timestamp t) ∧
  (∃ s, source_ip_cell row = Str s) ∧
  (∃ s, destination_ip_cell row = Str s) ∧
  (∃ z, port_cell row = Int z ∧ 0 ≤ z) ∧
  (∃ s, protocol_cell row = Str s) ∧
  (∃ z, packet_size_cell row = Int z ∧ 0 ≤ z).

(** One conversion, for columns written in the reference format
    [YYYY-MM-DD HH:MM:SS]: a missing cell becomes [NaT], an integer counts
    nanoseconds, a text in another format makes the call raise ([pandas]
    reads further formats, which this function leaves out). *)
Fixpoint reference_to_datetime (cells : list Cell) : result (list Datetime) :=
  match cells with
  | [] => Ok []
  | cell :: cells' =>
      first ←ᵣ match cell with
               | NaN => Ok NaT
               | Int z => Ok (Timestamp (z / 1000000000))
               | Str s =>
                   match Time.iso_to_datetime s with
                   | Some t => Ok (Timestamp t)
                   | None => Raise (DateParseError s)
                   end
               end;
      rest ←ᵣ reference_to_datetime cells';
      Ok (first :: rest)
  end.

End General.

(** ** [app.py]: the upload endpoint and the statistics *)

Module App.

(** An uploaded file: its name and its content as [pd.read_csv] reads it. *)
Record FileStorage := {
  filename : string;
  stream : RawFrame
}.

(** [str.endswith] *)
Definition endswith (s suffix : string) : bool :=
  bool_decide (String.list_ascii_of_string suffix
               `suffix_of` String.list_ascii_of_string s).

(** The JSON answers of the endpoint with their status codes (the
    [timestamp] field of the answer is left out). *)
Inductive Response :=
  | BadRequest (error : string)   (* success false, the error text; 400 *)
  | ServerError (e : exn)         (* success false, [str(e)]; 500 *)
  | StorageError (error : string) (* the same answer, for an exception that
                                     left [insert_alert]; 500 *)
  | Analysed (alerts_generated alerts_stored : nat) (summary : Summary).
                                  (* success true; 200 *)

(** What a call of [insert_alert] comes to: it returns [True], or [False]
    after catching a [sqlite3.Error], or an exception of another kind (an
    [OverflowError] for a port beyond 64 bits, say) leaves it. *)
Inductive Insertion :=
  | Returns (success : bool)
  | Raises (error : string).

(** A row of the [alerts] table as [get_recent_alerts] returns it. *)
Record StoredAlert := {
  id : Z;
  stored_timestamp : string;
  stored_source_ip : string;
  stored_port : Z;
  stored_threat_type : string;
  stored_description : string;
  created_at : string
}.

Record Stats := {
  hourly_counts : list (string * nat);
  stats_threat_breakdown : gmap string nat;
  total_recent_alerts : nat
}.

(** [get_alert_stats], given what [get_alert_count_by_hour(24)] and
    [get_recent_alerts(24)] returned. *)
Definition get_alert_stats (hourly_data : list (string * nat))
    (recent_alerts : list StoredAlert) : Stats :=
  let threat_breakdown :=
    foldl (λ (threat_breakdown : gmap string nat) alert,
             <[stored_threat_type alert :=
                 (default 0 (threat_breakdown !! stored_threat_type alert) + 1)%nat]>
               threat_breakdown)
          ∅ recent_alerts in
  {| hourly_counts := hourly_data;
     stats_threat_breakdown := threat_breakdown;
     total_recent_alerts := length recent_alerts |}.

Section Endpoint.

Variable to_datetime : string → option Z.

(** The database behind [db_manager], with the state in which a call of
    [insert_alert] leaves it and what the call comes to. *)
Variable Database : Type.
Variable insert_alert : Database → Alert → Database * Insertion.

(** The loop [for alert in alerts] of the endpoint: it ends with the count
    of the rows stored, or with the exception that left an insert. *)
Fixpoint store_alerts (db : Database) (alerts : list Alert) (stored_count : nat)
  : Database * (string + nat) :=
  match alerts with
  | [] => (db, inr stored_count)
  | alert :: alerts' =>
      match insert_alert db alert with
      | (db', Returns success) =>
          store_alerts db' alerts' (if success then S stored_count else stored_count)
      | (db', Raises error) => (db', inl error)
      end
  end.

(** [POST /api/analyze]; [file] is [request.files.get('file')], the analyzer
    is the module-level [NetworkAnalyzer()]. *)
Definition analyze_logs (now : Z) (db : Database) (file : option FileStorage)
  : Database * Response :=
  match file with
  | None => (db, BadRequest "No file uploaded")
  | Some file =>
      if decide (filename file = "") then (db, BadRequest "No file selected")
      else if negb (endswith (filename file) ".csv")
      then (db, BadRequest "File must be a CSV file")
      else
        match analyze_logs to_datetime init (stream file) with
        | Raise e => (db, ServerError e)
        | Ok alerts =>
            match store_alerts db alerts 0 with
            | (db', inr stored_count) =>
                (db', Analysed (length alerts) stored_count
                        (get_analysis_summary now alerts))
            | (db', inl error) => (db', StorageError error)
            end
        end
  end.

End Endpoint.

End App.

(** ** [scripts/validate.py]: the check of the sample log *)

Module Validate.

(** The sample file as [csv.DictReader] sees it: its field names ([None] for
    an empty file) and the number of its data rows, [None] when reading the
    rows raises (a field over the size limit, bytes that do not decode). *)
Record CsvFile := {
  fieldnames : option (list string);
  data_rows : option nat
}.

(** [validate_sample_csv]; [None] stands for a file that cannot be opened or
    whose first line cannot be read.  Every exception ends in [return False]. *)
Definition validate_sample_csv (sample : option CsvFile) : bool :=
  match sample with
  | None => false
  | Some reader =>
      match fieldnames reader with
      | None => false
      | Some names =>
          let missing_columns := filter (λ col, col ∉ names) required_columns in
          match missing_columns with
          | _ :: _ => false
          | [] =>
              match data_rows reader with
              | None => false
              | Some rows => true
              end
          end
      end
  end.

(** [pattern in text] on strings: [pattern] occurs somewhere in [text]. *)
Fixpoint contains (text pattern : list ascii) : bool :=
  bool_decide (pattern `prefix_of` text) ||
  match text with
  | [] => false
  | _ :: text' => contains text' pattern
  end.

Definition required_packages : list string := ["flask"; "pandas"; "flask-cors"].

(** [validate_backend_dependencies]; the argument is the lower-cased text of
    [backend/requirements.txt], [None] when the file is not there. *)
Definition validate_backend_dependencies (requirements : option string) : bool :=
  match requirements with
  | None => false
  | Some requirements =>
      let missing_packages :=
        filter (λ package,
                  contains (String.list_ascii_of_string requirements)
                           (String.list_ascii_of_string package) = false)
               required_packages in
      match missing_packages with
      | _ :: _ => false
      | [] => true
      end
  end.

End Validate.

(** A database that stores every alert it is given, newest first. *)
Definition list_insert_alert (db : list Alert) (alert : Alert)
  : list Alert * App.Insertion :=
  (alert :: db, App.Returns true).

(** A database that stores alerts in the same way, but whose insert raises
    for a port that does not fit 64 bits. *)
Definition bounded_insert_alert (db : list Alert) (alert : Alert)
  : list Alert * App.Insertion :=
  if decide (alert_port alert < 2 ^ 63) then (alert :: db, App.Returns true)
  else (db, App.Raises "Python int too large to convert to SQLite INTEGER").

(** ** Vocabulary of the statements *)

(** Ascending timestamps. *)
Definition ascending (l : list Row) : Prop :=
  StronglySorted (λ a b, timestamp a ≤ timestamp b) l.

(** The test of the inner loop: the window opened at [row] holds more rows
    than the threshold. *)
Definition over_threshold (self : NetworkAnalyzer) (ip_data : list Row)
    (row : Row) : Prop :=
  connection_threshold self <
  Z.of_nat (length (window_connections self ip_data (timestamp row))).

#[global] Instance over_threshold_dec self ip_data row :
  Decision (over_threshold self ip_data row).
Proof. unfold over_threshold. apply _. Defined.

(** The rows of one source address, in batch order. *)
Definition rows_of (ip : string) (df : DataFrame) : list Row :=
  filter (λ row, source_ip row = ip) df.

(** How many rows of [ip] in the batch fall in the window that opens at [t]
    and closes, inclusively, [time_window] seconds later. *)
Definition window_count (self : NetworkAnalyzer) (df : DataFrame) (ip : string)
    (t : Z) : nat :=
  length (filter (λ row, source_ip row = ip ∧
                         t ≤ timestamp row ∧ timestamp row ≤ t + time_window self) df).

(** The alerts that name one source address. *)
Definition alerts_for (ip : string) (alerts : list Alert) : list Alert :=
  filter (λ a, alert_source_ip a = ip) alerts.

(** Position of the first appearance of [x] ([length l] when there is none). *)
Fixpoint first_index (x : string) (l : list string) : nat :=
  match l with
  | [] => 0
  | y :: l' => if decide (y = x) then 0 else S (first_index x l')
  end.

(** The order in which the source addresses first appear in the batch. *)
Definition by_first_appearance (df : DataFrame) (a b : Alert) : Prop :=
  (first_index (alert_source_ip a) (source_ip <$> df)
   < first_index (alert_source_ip b) (source_ip <$> df))%nat.

(** An alert reports a row when it carries the row's time, address and port. *)
Definition reports (a : Alert) (row : Row) : Prop :=
  alert_timestamp a = Time.strftime (timestamp row) ∧
  alert_source_ip a = source_ip row ∧
  alert_port a = port row.

#[global] Instance reports_dec a row : Decision (reports a row).
Proof. unfold reports. apply _. Defined.

(** The alerts report, one each and in the same order, some rows picked from
    the batch without reordering. *)
Definition in_input_order (alerts : list Alert) (df : DataFrame) : Prop :=
  ∃ rows, rows `sublist_of` df ∧ Forall2 reports alerts rows.

(** The four rule segments of an alert list, each in input record order. *)
Definition segments_in_input_order (alerts : list Alert) (df : DataFrame)
  : Prop :=
  ∃ ports freq protos packets,
    alerts = ports ++ freq ++ protos ++ packets ∧
    Forall (λ a, threat_type a = "Suspicious Port") ports ∧
    Forall (λ a, threat_type a = "High Frequency Connection") freq ∧
    Forall (λ a, threat_type a = "Unusual Protocol") protos ∧
    Forall (λ a, threat_type a = "Large Packet") packets ∧
    in_input_order ports df ∧ in_input_order freq df ∧
    in_input_order protos df ∧ in_input_order packets df.

(** Greedy matching of alerts against the batch, left to right. *)
Fixpoint embeds (alerts : list Alert) (df : DataFrame) : bool :=
  match df with
  | [] => match alerts with [] => true | _ :: _ => false end
  | row :: df' =>
      match alerts with
      | [] => true
      | a :: alerts' =>
          if decide (reports a row) then embeds alerts' df' else embeds alerts df'
      end
  end.

(** The record invariant of the specification, as far as values go. *)
Definition ConnectionRecord_invariant (row : Row) : Prop :=
  0 ≤ port row ∧ 0 ≤ packet_size row.

(** A parsed row is the raw row with its timestamp cell converted. *)
Definition converted (to_datetime : string → option Z) (raw : RawRow)
    (row : Row) : Prop :=
  to_datetime (raw_timestamp raw) = Some (timestamp row) ∧
  source_ip row = raw_source_ip raw ∧
  destination_ip row = raw_destination_ip raw ∧
  port row = raw_port raw ∧
  protocol row = raw_protocol raw ∧
  packet_size row = raw_packet_size raw.

(** The sum of the counts of a breakdown, [sum(threat_breakdown.values())]. *)
Definition breakdown_total (threat_counts : gmap string nat) : nat :=
  map_fold (λ _ n acc, (n + acc)%nat) 0%nat threat_counts.

(** What an alert says apart from its port. *)
Definition alert_facts (a : Alert) : string * string * string * string :=
  (alert_timestamp a, alert_source_ip a, threat_type a, description a).

(** How many alerts of a list carry one threat type. *)
Definition count_type (t : string) (alerts : list Alert) : nat :=
  length (filter (λ a, threat_type a = t) alerts).

(** The four threat types. *)
Definition threat_types : list string :=
  ["Suspicious Port"; "High Frequency Connection"; "Unusual Protocol"; "Large Packet"].

(** What [df.sort_values('timestamp')] promises: the same rows, in ascending
    order of their timestamps. *)
Definition sorts_by_timestamp (sort_values : DataFrame → DataFrame) : Prop :=
  ∀ df, sort_values df ≡ₚ df ∧ ascending (sort_values df).

(** Texts of ASCII characters, and what [str.upper] does on them. *)
Definition ascii_only (s : string) : Prop :=
  Forall (λ c, (nat_of_ascii c < 128)%nat) (String.list_ascii_of_string s).

Definition uppercases_ascii (str_upper : string → string) : Prop :=
  ∀ s, ascii_only s → str_upper s = upper s.


(** Rows of equal timestamps carry equal ports. *)
Definition ties_share_port (rows : list Row) : Prop :=
  ∀ r r', r ∈ rows → r' ∈ rows → timestamp r = timestamp r' → port r = port r'.

(** ** Sample batches *)

(** 2024-01-01 12:00:00 *)
Definition noon : Z := 1704110400.

Definition sample_row (ip : string) (t : Z) : Row := {|
  timestamp := t;
  source_ip := ip;
  destination_ip := "10.0.0.1";
  port := 443;
  protocol := "TCP";
  packet_size := 500
|}.

(** [n] rows of [ip], [step] seconds apart, the first one at [start]. *)
Definition burst (ip : string) (start step : Z) (n : nat) : DataFrame :=
  (λ k, sample_row ip (start + step * Z.of_nat k)) <$> seq 0 n.

(** Address [10.0.0.5] shows up first with one early row and bursts an hour
    after [10.0.0.9] does. *)
Definition late_burst : DataFrame :=
  [sample_row "10.0.0.5" (noon - 3600)] ++
  burst "10.0.0.9" noon 4 11 ++
  burst "10.0.0.5" (noon + 3600) 4 11.

(** The frame that [pd.read_csv] delivers for a log file holding the rows
    [df], timestamps written in the reference format. *)
Definition raw_of_row (row : Row) : RawRow := {|
  raw_timestamp := Time.strftime (timestamp row);
  raw_source_ip := source_ip row;
  raw_destination_ip := destination_ip row;
  raw_port := port row;
  raw_protocol := protocol row;
  raw_packet_size := packet_size row
|}.

Definition raw_frame (df : DataFrame) : RawFrame :=
  {| raw_columns := required_columns; raw_rows := raw_of_row <$> df |}.

(** One row that trips the three stateless rules. *)
Definition odd_row : Row := {|
  timestamp := noon;
  source_ip := "192.168.1.100";
  destination_ip := "10.0.0.1";
  port := 4444;
  protocol := "ICMP";
  packet_size := 70000
|}.

(** A log line whose port cell reads [-1]. *)
Definition negative_port_row : Row := {|
  timestamp := noon;
  source_ip := "192.168.1.100";
  destination_ip := "10.0.0.1";
  port := -1;
  protocol := "TCP";
  packet_size := 500
|}.

(** A log line whose port cell reads [2^63]. *)
Definition huge_port_row : Row := {|
  timestamp := noon;
  source_ip := "192.168.1.100";
  destination_ip := "10.0.0.1";
  port := 2 ^ 63;
  protocol := "TCP";
  packet_size := 500
|}.

(** A file without the [protocol] column. *)
Definition no_protocol_frame : RawFrame :=
  {| raw_columns := ["timestamp"; "source_ip"; "destination_ip"; "port"; "packet_size"];
     raw_rows := [raw_of_row odd_row] |}.

(** An analyzer whose threshold attribute was set to [-1]. *)
Definition negative_threshold : NetworkAnalyzer :=
  {| allowed_ports := {[22; 80; 443]};
     connection_threshold := -1;
     time_window := 60 |}.

(** A log line whose timestamp cell reads [yesterday]. *)
Definition unreadable_row : RawRow := {|
  raw_timestamp := "yesterday";
  raw_source_ip := "10.0.0.5";
  raw_destination_ip := "10.0.0.1";
  raw_port := 443;
  raw_protocol := "TCP";
  raw_packet_size := 500
|}.

Definition one_bad_cell_frame : RawFrame :=
  {| raw_columns := required_columns;
     raw_rows := [raw_of_row odd_row; unreadable_row; raw_of_row negative_port_row] |}.

(** Two uploads of the same one-row log, the second under a name in capitals. *)
Definition sample_upload : App.FileStorage :=
  {| App.filename := "logs.csv"; App.stream := raw_frame [odd_row] |}.

Definition capitals_upload : App.FileStorage :=
  {| App.filename := "logs.CSV"; App.stream := raw_frame [odd_row] |}.

(** An ascending order that is not stable: rows of equal timestamps stay in
    index order in frames of at most 17 rows and come out in reverse index
    order in longer ones.  The default [kind='quicksort'] of
    [df.sort_values] promises no order among equal keys; its introsort
    sorts up to 17 rows by insertion and partitions longer frames around a
    median of three, which on the sample batches [tied_burst] and
    [tied_burst_and_others] below leaves the rows as this function does. *)
Definition cutoff_sort (df : DataFrame) : DataFrame :=
  if decide (length df ≤ 17)%nat then sort_values df
  else sort_values (reverse df).

(** An upper-casing that knows the long s (U+017F, the bytes 197 and 191 in
    UTF-8) besides the ASCII letters. *)
Fixpoint long_s_upper (s : string) : string :=
  match s with
  | EmptyString => EmptyString
  | String c rest =>
      match rest with
      | String c' rest' =>
          if decide (nat_of_ascii c = 197 ∧ nat_of_ascii c' = 191)%nat
          then String "S" (long_s_upper rest')
          else String (upper_char c) (long_s_upper rest)
      | EmptyString => String (upper_char c) EmptyString
      end
  end.

(** A row of [10.0.0.5] under the protocol name [p]. *)
Definition protocol_row (p : string) : Row := {|
  timestamp := noon;
  source_ip := "10.0.0.5";
  destination_ip := "10.0.0.1";
  port := 443;
  protocol := p;
  packet_size := 500
|}.

(** Eleven rows of [10.0.0.9] at the same second, to the ports 1000 to 1010,
    and the same rows followed by fourteen earlier rows of another address,
    two minutes apart. *)
Definition tied_row (k : nat) : Row := {|
  timestamp := noon;
  source_ip := "10.0.0.9";
  destination_ip := "10.0.0.1";
  port := 1000 + Z.of_nat k;
  protocol := "TCP";
  packet_size := 500
|}.

Definition tied_burst : DataFrame := tied_row <$> seq 0 11.

Definition tied_burst_and_others : DataFrame :=
  tied_burst ++ burst "10.0.0.5" (noon - 600) (-120) 14.

(** A row of a frame in the reference format. *)
Definition frame_row (ts : General.Cell) (p : General.Cell)
  : General.FrameRow General.Cell := {|
  General.timestamp_cell := ts;
  General.source_ip_cell := General.Str "192.168.1.100";
  General.destination_ip_cell := General.Str "10.0.0.1";
  General.port_cell := p;
  General.protocol_cell := General.Str "TCP";
  General.packet_size_cell := General.Int 500
|}.

(** * Properties *)

(** ** Sorting by timestamp *)

Lemma insert_by_timestamp_Permutation row l :
  insert_by_timestamp row l ≡ₚ row :: l.
Proof.
  induction l as [|x l IH]; simpl; [done|].
  case_decide; [done|]. rewrite IH. apply Permutation_swap.
Qed.

Lemma sort_values_Permutation df : sort_values df ≡ₚ df.
Proof.
  induction df as [|row df IH]; simpl; [done|].
  by rewrite insert_by_timestamp_Permutation, IH.
Qed.

Lemma insert_by_timestamp_ascending row l :
  ascending l → ascending (insert_by_timestamp row l).
Proof.
  unfold ascending. induction l as [|x l IH]; simpl; intros Hl.
  - repeat constructor.
  - apply StronglySorted_inv in Hl as [Hl Hx]. case_decide.
    + constructor; [by constructor|]. constructor; [done|].
      eapply Forall_impl; [exact Hx|]. simpl. lia.
    + constructor; [by apply IH|].
      rewrite insert_by_timestamp_Permutation. constructor; [lia|done].
Qed.

Lemma sort_values_ascending df : ascending (sort_values df).
Proof.
  induction df as [|row df IH]; simpl; [constructor|].
  by apply insert_by_timestamp_ascending.
Qed.

Lemma insert_by_timestamp_least row l :
  Forall (λ x, timestamp row ≤ timestamp x) l →
  insert_by_timestamp row l = row :: l.
Proof.
  destruct l as [|x l]; simpl; [done|].
  intros [Hx _]%Forall_cons. by rewrite decide_True.
Qed.

(** A stable sort commutes with selecting rows. *)
Lemma filter_insert_by_timestamp (P : Row → Prop) `{!∀ x, Decision (P x)} row l :
  ascending l →
  filter P (insert_by_timestamp row l) =
  if decide (P row) then insert_by_timestamp row (filter P l) else filter P l.
Proof.
  unfold ascending. induction l as [|x l IH]; simpl; intros Hl.
  - rewrite filter_cons, filter_nil. by case_decide.
  - apply StronglySorted_inv in Hl as [Hl Hx]. specialize (IH Hl).
    destruct (decide (timestamp row ≤ timestamp x)) as [Hle|Hgt].
    + rewrite (filter_cons _ row). destruct (decide (P row)); [|done].
      symmetry. apply insert_by_timestamp_least.
      apply Forall_forall. intros y [_ Hy]%list_elem_of_filter.
      apply elem_of_cons in Hy as [->|Hy]; [done|].
      rewrite Forall_forall in Hx. specialize (Hx y Hy). simpl in Hx. lia.
    + rewrite (filter_cons _ x), IH, (filter_cons _ x).
      destruct (decide (P x)), (decide (P row)); simpl; try done.
      by rewrite decide_False.
Qed.

Lemma filter_sort_values (P : Row → Prop) `{!∀ x, Decision (P x)} df :
  filter P (sort_values df) = sort_values (filter P df).
Proof.
  induction df as [|row df IH]; simpl; [done|].
  rewrite filter_insert_by_timestamp by apply sort_values_ascending.
  rewrite filter_cons, IH. by case_decide.
Qed.

(** ** [unique] *)

Lemma elem_of_unique x l : x ∈ unique l ↔ x ∈ l.
Proof.
  induction l as [|y l IH]; simpl; [done|].
  rewrite !elem_of_cons, list_elem_of_filter, IH.
  destruct (decide (x = y)); tauto.
Qed.

Lemma NoDup_unique l : NoDup (unique l).
Proof.
  induction l as [|y l IH]; simpl; constructor.
  - rewrite list_elem_of_filter. tauto.
  - by apply NoDup_filter.
Qed.

Lemma StronglySorted_filter_impl {A} (R R' : relation A) (P : A → Prop)
    `{!∀ x, Decision (P x)} l :
  (∀ a b, P a → P b → R a b → R' a b) →
  StronglySorted R l → StronglySorted R' (filter P l).
Proof.
  intros HR. induction 1 as [|x l _ IH Hx]; [constructor|].
  rewrite filter_cons. case_decide; [|done]. constructor; [done|].
  apply Forall_forall. intros y [Hy Hin]%list_elem_of_filter.
  rewrite Forall_forall in Hx. auto.
Qed.

Lemma unique_first_index l :
  StronglySorted (λ a b, first_index a l < first_index b l)%nat (unique l).
Proof.
  induction l as [|x l IH]; simpl; constructor.
  - eapply StronglySorted_filter_impl; [|exact IH].
    intros a b Ha Hb Hab. simpl in *.
    destruct (decide (x = a)), (decide (x = b)); try congruence; lia.
  - apply Forall_forall. intros y [Hy _]%list_elem_of_filter.
    destruct (decide (x = x)), (decide (x = y)); try congruence; lia.
Qed.

(** ** The window scan *)

Lemma scan_windows_find self ip ip_data todo :
  scan_windows self ip ip_data todo =
  match list_find (over_threshold self ip_data) todo with
  | None => Ok []
  | Some (_, row) =>
      let window := window_connections self ip_data (timestamp row) in
      match window with
      | first :: _ =>
          Ok [high_frequency_alert self ip (timestamp row) (length window) first]
      | [] => Raise IndexError
      end
  end.
Proof.
  induction todo as [|row todo IH]; [done|].
  cbn [scan_windows list_find]. fold (over_threshold self ip_data row).
  destruct (decide (over_threshold self ip_data row)); [done|].
  rewrite IH. by destruct (list_find _ todo) as [[? ?]|].
Qed.

Lemma elem_of_window_connections self ip_data row :
  0 ≤ time_window self → row ∈ ip_data →
  row ∈ window_connections self ip_data (timestamp row).
Proof.
  intros HW Hin. unfold window_connections.
  apply list_elem_of_filter. split; [lia|done].
Qed.

Lemma scan_windows_total self ip ip_data todo :
  0 ≤ time_window self → todo ⊆ ip_data →
  ∃ alerts, scan_windows self ip ip_data todo = Ok alerts.
Proof.
  intros HW Hsub. rewrite scan_windows_find.
  destruct (list_find _ todo) as [[i row]|] eqn:Hfind; [|by eexists].
  apply list_find_Some in Hfind as (Hrow & _ & _).
  apply list_elem_of_lookup_2, Hsub in Hrow.
  apply (elem_of_window_connections self) in Hrow; [|done]. cbv zeta.
  destruct (window_connections _ _ _); [by apply elem_of_nil in Hrow|by eexists].
Qed.

Lemma scan_windows_source self ip ip_data todo alerts :
  scan_windows self ip ip_data todo = Ok alerts →
  Forall (λ a, alert_source_ip a = ip) alerts.
Proof.
  rewrite scan_windows_find.
  destruct (list_find _ todo) as [[i row]|]; cbv zeta.
  - destruct (window_connections _ _ _); [done|].
    intros [= <-]. by repeat constructor.
  - intros [= <-]. constructor.
Qed.

Lemma scan_source_total self df_sorted ip :
  0 ≤ time_window self → ∃ alerts, scan_source self df_sorted ip = Ok alerts.
Proof.
  intros HW. unfold scan_source. case_decide; [by eexists|].
  by apply scan_windows_total.
Qed.

Lemma scan_source_source self df_sorted ip alerts :
  scan_source self df_sorted ip = Ok alerts →
  Forall (λ a, alert_source_ip a = ip) alerts.
Proof.
  unfold scan_source. case_decide.
  - intros [= <-]. constructor.
  - apply scan_windows_source.
Qed.

Lemma scan_sources_total self df_sorted ips :
  0 ≤ time_window self → ∃ alerts, scan_sources self df_sorted ips = Ok alerts.
Proof.
  intros HW. induction ips as [|ip ips [more IH]]; simpl; [by eexists|].
  destruct (scan_source_total self df_sorted ip HW) as [found ->].
  rewrite IH. by eexists.
Qed.

Lemma detect_high_frequency_connections_total self df :
  0 ≤ time_window self →
  ∃ alerts, detect_high_frequency_connections self df = Ok alerts.
Proof. intros. by apply scan_sources_total. Qed.

(** The alerts of one address come from the turn of the outer loop for it. *)
Lemma scan_sources_alerts_for self df_sorted ips ip alerts :
  NoDup ips →
  scan_sources self df_sorted ips = Ok alerts →
  alerts_for ip alerts =
  if decide (ip ∈ ips) then returned (scan_source self df_sorted ip) else [].
Proof.
  unfold alerts_for. intros Hnd. revert alerts.
  induction Hnd as [|ip' ips Hnotin Hnd IH]; cbn [scan_sources]; intros alerts.
  - intros [= <-]. by rewrite decide_False by apply not_elem_of_nil.
  - destruct (scan_source self df_sorted ip') as [found|] eqn:Hfound; [|done].
    destruct (scan_sources self df_sorted ips) as [more|]; [|done].
    simpl. intros [= <-]. rewrite filter_app, (IH more eq_refl).
    apply scan_source_source in Hfound as Hsrc.
    destruct (decide (ip = ip')) as [->|Hne].
    + rewrite (decide_False (P := ip' ∈ ips)) by done. rewrite decide_True by left.
      rewrite Hfound, app_nil_r. simpl.
      clear -Hsrc. induction Hsrc as [|a l Ha _ IHl]; [done|].
      by rewrite filter_cons_True, IHl.
    + assert (filter (λ a, alert_source_ip a = ip) found = []) as ->.
      { clear -Hsrc Hne. induction Hsrc as [|a l Ha _ IHl]; [done|].
        rewrite filter_cons_False; [done|congruence]. }
      simpl. destruct (decide (ip ∈ ips)) as [Hin|Hnin].
      * by rewrite decide_True by by right.
      * rewrite decide_False; [done|]. rewrite elem_of_cons. tauto.
Qed.

Lemma detect_high_frequency_alerts_for self df ip alerts :
  detect_high_frequency_connections self df = Ok alerts →
  alerts_for ip alerts =
  if decide (rows_of ip df = []) then []
  else returned (scan_source self (sort_values df) ip).
Proof.
  intros Hdet. unfold detect_high_frequency_connections in Hdet.
  rewrite (scan_sources_alerts_for _ _ _ ip _ (NoDup_unique _) Hdet).
  assert (ip ∈ unique (source_ip <$> df) ↔ rows_of ip df ≠ []) as Hiff.
  { rewrite elem_of_unique, list_elem_of_fmap. unfold rows_of. split.
    - intros (row & -> & Hin) Hnil.
      by apply (filter_nil_not_elem_of _ _ row) in Hnil.
    - intros Hne. destruct (filter _ df) as [|row l] eqn:Hf; [done|].
      assert (row ∈ filter (λ row, source_ip row = ip) df) as Hin
        by (rewrite Hf; left).
      apply list_elem_of_filter in Hin as [? ?]. eauto. }
  destruct (decide (rows_of ip df = [])), (decide (ip ∈ _));
    first [done | exfalso; tauto].
Qed.

Lemma filter_none {A} (P : A → Prop) `{!∀ x, Decision (P x)} (l : list A) :
  (∀ x, x ∈ l → ¬ P x) → filter P l = [].
Proof.
  induction l as [|x l IH]; intros Hl; [done|].
  rewrite filter_cons_False by (apply Hl; left).
  apply IH. intros y Hy. apply Hl. by right.
Qed.

(** The window counted by the loop over the sorted selection is the window
    counted over the batch. *)
Lemma length_window_connections self df ip t :
  length (window_connections self (filter (λ row, source_ip row = ip) (sort_values df)) t)
  = window_count self df ip t.
Proof.
  unfold window_connections, window_count.
  rewrite list_filter_filter, (sort_values_Permutation df).
  f_equal. apply list_filter_iff. tauto.
Qed.

Lemma over_threshold_window_count self df ip row :
  over_threshold self (filter (λ row, source_ip row = ip) (sort_values df)) row ↔
  connection_threshold self < Z.of_nat (window_count self df ip (timestamp row)).
Proof. unfold over_threshold. by rewrite length_window_connections. Qed.

Lemma elem_of_ip_data df ip row :
  row ∈ filter (λ row, source_ip row = ip) (sort_values df) ↔
  row ∈ df ∧ source_ip row = ip.
Proof. rewrite list_elem_of_filter, (sort_values_Permutation df). tauto. Qed.

Lemma ip_data_ascending df ip :
  ascending (filter (λ row, source_ip row = ip) (sort_values df)).
Proof.
  eapply StronglySorted_filter_impl; [|apply sort_values_ascending]. auto.
Qed.

(** In an ascending selection the first window over the threshold opens with
    the row that the scan stands on. *)
Lemma window_head self l i row :
  0 ≤ time_window self → ascending l →
  l !! i = Some row →
  over_threshold self l row →
  (∀ j y, l !! j = Some y → (j < i)%nat → ¬ over_threshold self l y) →
  head (window_connections self l (timestamp row)) = Some row.
Proof.
  intros HW Hasc Hrow Hover Hmin.
  assert (∀ y, y ∈ take i l → timestamp y < timestamp row) as Hbefore.
  { intros y Hy. pose proof Hy as (j & Hj & Hlt)%elem_of_take.
    assert (timestamp y ≤ timestamp row) as Hle.
    { unfold ascending in Hasc. rewrite <-(take_drop_middle l i row Hrow) in Hasc.
      eapply (StronglySorted_app_1_elem_of _ _ _ y row) in Hasc; [done|done|left]. }
    destruct (decide (timestamp y = timestamp row)) as [Heq|]; [|lia].
    destruct (Hmin j y Hj Hlt). unfold over_threshold in *. by rewrite Heq. }
  unfold window_connections.
  rewrite <-(take_drop_middle l i row Hrow), filter_app.
  rewrite filter_none by (intros y Hy%Hbefore; lia).
  rewrite filter_cons_True by lia. done.
Qed.

Lemma length_window_le self ip_data t :
  (length (window_connections self ip_data t) ≤ length ip_data)%nat.
Proof. apply length_filter. Qed.

Lemma scan_source_none self df ip :
  (∀ row, row ∈ df → source_ip row = ip →
     Z.of_nat (window_count self df ip (timestamp row)) ≤ connection_threshold self) →
  scan_source self (sort_values df) ip = Ok [].
Proof.
  intros Hall. unfold scan_source. case_decide; [done|].
  rewrite scan_windows_find.
  destruct (list_find _ _) as [[i row]|] eqn:Hfind; [|done].
  apply list_find_Some in Hfind as (Hrow & Hover & _).
  apply list_elem_of_lookup_2, elem_of_ip_data in Hrow as [Hin Hsrc].
  apply over_threshold_window_count in Hover.
  specialize (Hall row Hin Hsrc). lia.
Qed.

Lemma scan_source_first self df ip i row :
  0 ≤ time_window self →
  filter (λ row, source_ip row = ip) (sort_values df) !! i = Some row →
  connection_threshold self < Z.of_nat (window_count self df ip (timestamp row)) →
  (∀ j y, filter (λ row, source_ip row = ip) (sort_values df) !! j = Some y →
     (j < i)%nat →
     Z.of_nat (window_count self df ip (timestamp y)) ≤ connection_threshold self) →
  scan_source self (sort_values df) ip =
  Ok [high_frequency_alert self ip (timestamp row)
        (window_count self df ip (timestamp row)) row].
Proof.
  intros HW Hrow Hover Hmin. unfold scan_source.
  set (ip_data := filter _ (sort_values df)) in *.
  apply over_threshold_window_count in Hover. fold ip_data in Hover.
  assert (∀ j y, ip_data !! j = Some y → (j < i)%nat →
            ¬ over_threshold self ip_data y) as Hmin'.
  { intros j y Hy Hlt Hy'%over_threshold_window_count.
    specialize (Hmin j y Hy Hlt). lia. }
  rewrite decide_False.
  2:{ pose proof (length_window_le self ip_data (timestamp row)).
      unfold over_threshold in Hover. lia. }
  rewrite scan_windows_find.
  rewrite (proj2 (list_find_Some _ ip_data i row)) by done. cbv zeta.
  pose proof (window_head self ip_data i row HW (ip_data_ascending df ip)
                Hrow Hover Hmin') as Hhead.
  unfold ip_data at 2. rewrite length_window_connections. fold ip_data.
  by destruct (window_connections self ip_data (timestamp row));
    simplify_eq/=.
Qed.

Lemma window_count_le_rows self df ip t :
  (window_count self df ip t ≤ length (rows_of ip df))%nat.
Proof.
  unfold window_count, rows_of.
  rewrite <-(list_filter_filter_l
               (λ row, source_ip row = ip ∧ t ≤ timestamp row ∧
                       timestamp row ≤ t + time_window self)
               (λ row, source_ip row = ip)) by tauto.
  apply length_filter.
Qed.

(** ** The high-frequency rule: threshold and first window *)

(** C1. With a non-negative window length the detector returns, and for every
    source address: no alert when none of the windows opened at its rows
    holds more rows than the threshold (so none when it has at most
    [connection_threshold] rows at all), and exactly one alert when some
    window holds strictly more. *)
Theorem high_frequency_threshold_boundary self df ip :
  0 ≤ time_window self →
  ∃ alerts,
    detect_high_frequency_connections self df = Ok alerts ∧
    (Forall (λ row, Z.of_nat (window_count self df ip (timestamp row))
                    ≤ connection_threshold self) (rows_of ip df) →
     alerts_for ip alerts = []) ∧
    (Z.of_nat (length (rows_of ip df)) ≤ connection_threshold self →
     alerts_for ip alerts = []) ∧
    (Exists (λ row, connection_threshold self
                    < Z.of_nat (window_count self df ip (timestamp row)))
            (rows_of ip df) →
     length (alerts_for ip alerts) = 1%nat).
Proof.
  intros HW.
  destruct (detect_high_frequency_connections_total self df HW) as [alerts Hdet].
  exists alerts. split; [done|].
  pose proof (detect_high_frequency_alerts_for _ _ ip _ Hdet) as Hfor.
  assert (Forall (λ row, Z.of_nat (window_count self df ip (timestamp row))
                         ≤ connection_threshold self) (rows_of ip df) →
          alerts_for ip alerts = []) as Hquiet.
  { intros Hall. rewrite Hfor. case_decide; [done|].
    rewrite scan_source_none; [done|].
    intros row Hin Hsrc. rewrite Forall_forall in Hall.
    apply Hall. by apply list_elem_of_filter. }
  split_and!; [done| |].
  - intros Hlen. apply Hquiet, Forall_forall. intros row _.
    pose proof (window_count_le_rows self df ip (timestamp row)). lia.
  - intros (row & Hrow & Hover)%Exists_exists.
    rewrite Hfor, decide_False by (intros Hnil; rewrite Hnil in Hrow; inv Hrow).
    apply list_elem_of_filter in Hrow as [Hsrc Hin].
    assert (row ∈ filter (λ row, source_ip row = ip) (sort_values df)) as Hdata
      by by apply elem_of_ip_data.
    apply over_threshold_window_count in Hover.
    destruct (list_find_elem_of _ _ _ Hdata Hover) as [[i first] Hfind].
    apply list_find_Some in Hfind as (Hfirst & Hfirst_over & Hmin).
    erewrite scan_source_first; [done|done|exact Hfirst|..].
    + by apply over_threshold_window_count.
    + intros j y Hy Hlt. specialize (Hmin j y Hy Hlt).
      rewrite over_threshold_window_count in Hmin. lia.
Qed.

Lemma high_frequency_threshold_boundary_witness :
  alerts_for "10.0.0.5"
    (returned (detect_high_frequency_connections init (burst "10.0.0.5" noon 4 10))) = [] ∧
  alerts_for "10.0.0.5"
    (returned (detect_high_frequency_connections init (burst "10.0.0.5" noon 10 12))) = [] ∧
  length (alerts_for "10.0.0.5"
    (returned (detect_high_frequency_connections init (burst "10.0.0.5" noon 4 11)))) = 1%nat.
Proof.
  split_and!.
  - destruct (high_frequency_threshold_boundary init (burst "10.0.0.5" noon 4 10)
                "10.0.0.5") as (alerts & -> & _ & Hfew & _); [done|].
    apply Hfew. vm_compute. discriminate.
  - destruct (high_frequency_threshold_boundary init (burst "10.0.0.5" noon 10 12)
                "10.0.0.5") as (alerts & -> & Hquiet & _ & _); [done|].
    apply Hquiet. apply (bool_decide_unpack _). vm_compute. exact I.
  - destruct (high_frequency_threshold_boundary init (burst "10.0.0.5" noon 4 11)
                "10.0.0.5") as (alerts & -> & _ & _ & Hloud); [done|].
    apply Hloud. apply (bool_decide_unpack _). vm_compute. exact I.
Defined.

(** ** The high-frequency rule: order of the alerts *)

Lemma scan_source_cases self df_sorted ip alerts :
  scan_source self df_sorted ip = Ok alerts →
  alerts = [] ∨ ∃ a, alerts = [a] ∧ alert_source_ip a = ip.
Proof.
  unfold scan_source. case_decide; [intros [= <-]; by left|].
  rewrite scan_windows_find.
  destruct (list_find _ _) as [[i row]|]; cbv zeta; [|intros [= <-]; by left].
  destruct (window_connections _ _ _); [done|].
  intros [= <-]. right. by eexists.
Qed.

Lemma scan_sources_order (R : relation string) self df_sorted ips alerts :
  StronglySorted R ips →
  scan_sources self df_sorted ips = Ok alerts →
  StronglySorted (λ a b, R (alert_source_ip a) (alert_source_ip b)) alerts ∧
  Forall (λ a, alert_source_ip a ∈ ips) alerts.
Proof.
  intros Hips. revert alerts.
  induction Hips as [|ip ips _ IH Hip]; cbn [scan_sources]; intros alerts.
  - intros [= <-]. split; constructor.
  - destruct (scan_source self df_sorted ip) as [found|] eqn:Hfound; [|done].
    destruct (scan_sources self df_sorted ips) as [more|]; [|done].
    cbn [bind]. intros [= <-]. destruct (IH more eq_refl) as [Hsorted Hin].
    assert (Forall (λ a, alert_source_ip a ∈ ip :: ips) more) as Hin'.
    { eapply Forall_impl; [exact Hin|]. intros a Ha. by right. }
    apply scan_source_cases in Hfound as [->|(a & -> & Ha)]; [done|].
    cbn [app]. split.
    + constructor; [done|]. rewrite Forall_forall in Hin.
      rewrite Forall_forall in Hip.
      apply Forall_forall. intros b Hb. rewrite Ha. by apply Hip, Hin.
    + constructor; [rewrite Ha; left|done].
Qed.

Lemma detect_high_frequency_order self df alerts :
  detect_high_frequency_connections self df = Ok alerts →
  StronglySorted (by_first_appearance df) alerts ∧
  Forall (λ a, alert_source_ip a ∈ source_ip <$> df) alerts.
Proof.
  intros Hdet.
  apply (scan_sources_order _ _ _ _ _ (unique_first_index (source_ip <$> df)))
    in Hdet as [Hsorted Hin].
  split; [done|]. eapply Forall_impl; [exact Hin|].
  intros a. by rewrite elem_of_unique.
Qed.

(** C10. The high-frequency alerts come out in the order in which their
    source addresses first appear in the batch; this need not be the order
    of the window starts, as the batch [late_burst] shows. *)
Theorem high_frequency_alert_order :
  (∀ self df alerts,
     detect_high_frequency_connections self df = Ok alerts →
     StronglySorted (by_first_appearance df) alerts ∧
     Forall (λ a, alert_source_ip a ∈ source_ip <$> df) alerts) ∧
  (detect_high_frequency_connections init late_burst =
     Ok [high_frequency_alert init "10.0.0.5" (noon + 3600) 11
           (sample_row "10.0.0.5" (noon + 3600));
         high_frequency_alert init "10.0.0.9" noon 11
           (sample_row "10.0.0.9" noon)] ∧
   noon < noon + 3600).
Proof.
  split; [apply detect_high_frequency_order|].
  split; [vm_compute; reflexivity|done].
Qed.

Lemma high_frequency_alert_order_witness :
  StronglySorted (by_first_appearance late_burst)
    [high_frequency_alert init "10.0.0.5" (noon + 3600) 11
       (sample_row "10.0.0.5" (noon + 3600));
     high_frequency_alert init "10.0.0.9" noon 11
       (sample_row "10.0.0.9" noon)].
Proof.
  apply (proj1 high_frequency_alert_order init late_burst).
  vm_compute. reflexivity.
Defined.

(** ** The orchestrator: order of the alert list *)

Lemma embeds_tail a alerts df :
  embeds (a :: alerts) df = true → embeds alerts df = true.
Proof.
  revert a alerts. induction df as [|row df IH]; intros a alerts; [done|].
  cbn [embeds]. destruct alerts as [|b alerts]; [done|].
  destruct (decide (reports a row)), (decide (reports b row)); eauto.
Qed.

Lemma embeds_skip alerts row df :
  embeds alerts df = true → embeds alerts (row :: df) = true.
Proof.
  destruct alerts as [|a alerts]; [done|]. cbn [embeds].
  case_decide; [apply embeds_tail|done].
Qed.

(** The greedy matching finds every in-order matching. *)
Lemma in_input_order_embeds alerts df :
  in_input_order alerts df → embeds alerts df = true.
Proof.
  intros (rows & Hsub & Hrep). revert alerts Hrep.
  induction Hsub as [|row rows df _ IH|row rows df _ IH]; intros alerts Hrep.
  - by inv Hrep.
  - inv Hrep. cbn [embeds]. rewrite decide_True by done. by apply IH.
  - by apply embeds_skip, IH.
Qed.

Lemma stateless_in_input_order (P : Row → Prop) `{!∀ row, Decision (P row)}
    (alert_of : Row → Alert) df :
  (∀ row, reports (alert_of row) row) →
  in_input_order (alert_of <$> filter P df) df.
Proof.
  intros Hrep. exists (filter P df). split; [apply sublist_filter|].
  apply Forall2_fmap_l, Forall_Forall2_diag, Forall_forall. auto.
Qed.

Lemma Forall_fmap_const {A B} (f : A → B) (Q : B → Prop) (l : list A) :
  (∀ x, Q (f x)) → Forall Q (f <$> l).
Proof. intros HQ. apply Forall_fmap, Forall_forall. intros x _. apply HQ. Qed.

Lemma detect_high_frequency_threat_type self df alerts :
  detect_high_frequency_connections self df = Ok alerts →
  Forall (λ a, threat_type a = "High Frequency Connection") alerts.
Proof.
  unfold detect_high_frequency_connections.
  generalize (unique (source_ip <$> df)) as ips. intros ips. revert alerts.
  induction ips as [|ip ips IH]; cbn [scan_sources]; intros alerts.
  - intros [= <-]. constructor.
  - destruct (scan_source self (sort_values df) ip) as [found|] eqn:Hfound; [|done].
    destruct (scan_sources self (sort_values df) ips) as [more|]; [|done].
    cbn [bind]. intros [= <-]. apply Forall_app. split; [|by apply IH].
    unfold scan_source in Hfound. case_decide; [by simplify_eq|].
    rewrite scan_windows_find in Hfound.
    destruct (list_find _ _) as [[i row]|]; cbv zeta in Hfound; [|by simplify_eq].
    destruct (window_connections _ _ _); [done|]. simplify_eq.
    by repeat constructor.
Qed.

(** C3, as the specification words it, fails on [late_burst]: the two
    high-frequency alerts come out with the alert for the later rows first. *)
Lemma frequency_segment_not_in_input_order :
  ∃ alerts,
    parse_csv_logs Time.iso_to_datetime (raw_frame late_burst) = Ok late_burst ∧
    analyze_logs Time.iso_to_datetime init (raw_frame late_burst) = Ok alerts ∧
    ¬ segments_in_input_order alerts late_burst.
Proof.
  eexists. split_and!; [vm_compute; reflexivity..|].
  intros (ports & freq & protos & packets & Heq & Hports & _ & Hprotos & Hpackets
          & _ & Hfreq & _ & _).
  destruct ports as [|p ports].
  2:{ apply Forall_cons in Hports as [Hp _]. by simplify_eq/=. }
  cbn [app] in Heq.
  assert (∀ x, x ∈ protos ++ packets →
            threat_type x = "High Frequency Connection") as Hhf.
  { intros x Hx.
    assert (x ∈ freq ++ protos ++ packets) as Hin
      by (apply elem_of_app; by right).
    rewrite <-Heq in Hin. set_unfold in Hin. by destruct Hin as [->|[->|[]]]. }
  destruct protos as [|x protos].
  2:{ apply Forall_cons in Hprotos as [Hx _].
      rewrite (Hhf x) in Hx; [done|left]. }
  destruct packets as [|x packets].
  2:{ apply Forall_cons in Hpackets as [Hx _].
      rewrite (Hhf x) in Hx; [done|left]. }
  rewrite !app_nil_r in Heq. subst freq.
  apply in_input_order_embeds in Hfreq. vm_compute in Hfreq. done.
Qed.

(** C3, amended. For a batch that parses and a non-negative window length
    the orchestrator returns the four rule segments in the fixed rule order;
    the port, protocol and packet segments follow input record order, the
    high-frequency segment follows the order in which the source addresses
    first appear in the batch. *)
Theorem analyze_logs_alert_order to_datetime self raw df :
  0 ≤ time_window self →
  parse_csv_logs to_datetime raw = Ok df →
  ∃ freq,
    detect_high_frequency_connections self df = Ok freq ∧
    analyze_logs to_datetime self raw =
      Ok (detect_suspicious_ports self df ++ freq ++
          detect_unusual_protocols self df ++ detect_large_packets self df 65536) ∧
    Forall (λ a, threat_type a = "Suspicious Port") (detect_suspicious_ports self df) ∧
    Forall (λ a, threat_type a = "High Frequency Connection") freq ∧
    Forall (λ a, threat_type a = "Unusual Protocol") (detect_unusual_protocols self df) ∧
    Forall (λ a, threat_type a = "Large Packet") (detect_large_packets self df 65536) ∧
    in_input_order (detect_suspicious_ports self df) df ∧
    StronglySorted (by_first_appearance df) freq ∧
    in_input_order (detect_unusual_protocols self df) df ∧
    in_input_order (detect_large_packets self df 65536) df.
Proof.
  intros HW Hparse.
  destruct (detect_high_frequency_connections_total self df HW) as [freq Hfreq].
  exists freq. unfold analyze_logs. rewrite Hparse. cbn [bind]. rewrite Hfreq.
  split_and!; try done.
  - by apply Forall_fmap_const.
  - by eapply detect_high_frequency_threat_type.
  - by apply Forall_fmap_const.
  - by apply Forall_fmap_const.
  - by apply stateless_in_input_order.
  - by apply (detect_high_frequency_order self).
  - by apply stateless_in_input_order.
  - by apply stateless_in_input_order.
Qed.

Lemma analyze_logs_alert_order_witness :
  analyze_logs Time.iso_to_datetime init (raw_frame (odd_row :: late_burst)) =
  Ok ([suspicious_port_alert odd_row] ++
      [high_frequency_alert init "10.0.0.5" (noon + 3600) 11
         (sample_row "10.0.0.5" (noon + 3600));
       high_frequency_alert init "10.0.0.9" noon 11 (sample_row "10.0.0.9" noon)] ++
      [unusual_protocol_alert odd_row] ++
      [large_packet_alert 65536 odd_row]).
Proof.
  destruct (analyze_logs_alert_order Time.iso_to_datetime init
              (raw_frame (odd_row :: late_burst)) (odd_row :: late_burst))
    as (freq & Hfreq & -> & _).
  - done.
  - vm_compute. reflexivity.
  - assert (freq = [high_frequency_alert init "10.0.0.5" (noon + 3600) 11
                      (sample_row "10.0.0.5" (noon + 3600));
                    high_frequency_alert init "10.0.0.9" noon 11
                      (sample_row "10.0.0.9" noon)]) as ->.
    { vm_compute in Hfreq. by injection Hfreq as <-. }
    vm_compute. reflexivity.
Defined.

(** ** The parser *)

Lemma convert_timestamps_converted to_datetime rows df :
  convert_timestamps to_datetime rows = Ok df →
  Forall2 (converted to_datetime) rows df.
Proof.
  revert df. induction rows as [|r rows IH]; cbn [convert_timestamps]; intros df.
  - intros [= <-]. constructor.
  - unfold convert_row.
    destruct (to_datetime (raw_timestamp r)) as [t|] eqn:Ht; [|done].
    destruct (convert_timestamps to_datetime rows) as [xs|]; [|done].
    cbn [bind]. intros [= <-]. constructor; [|by apply IH].
    by repeat split.
Qed.

Lemma parse_csv_logs_Ok to_datetime raw df :
  parse_csv_logs to_datetime raw = Ok df →
  filter (λ col, col ∉ raw_columns raw) required_columns = [] ∧
  convert_timestamps to_datetime (raw_rows raw) = Ok df.
Proof.
  unfold parse_csv_logs.
  by destruct (filter _ required_columns).
Qed.

(** C4, as the specification words it, fails: a row whose port cell reads
    [-1] is parsed and returned as it stands. *)
Lemma parser_keeps_negative_port :
  parse_csv_logs Time.iso_to_datetime (raw_frame [negative_port_row])
    = Ok [negative_port_row] ∧
  ¬ Forall ConnectionRecord_invariant [negative_port_row].
Proof.
  split; [vm_compute; reflexivity|].
  intros [[Hport _] _]%Forall_cons. vm_compute in Hport. done.
Qed.

(** C5. A header that lacks any of the six required columns makes the parser
    raise the error that lists exactly the missing names; the orchestrator
    passes the error on and hands out no alert. *)
Theorem missing_columns_rejected to_datetime self raw :
  Exists (λ col, col ∉ raw_columns raw) required_columns →
  ∃ missing,
    (∀ col, col ∈ missing ↔ col ∈ required_columns ∧ col ∉ raw_columns raw) ∧
    parse_csv_logs to_datetime raw =
      Raise (ValueError ("Missing required columns: " +:+ py_list_repr missing)) ∧
    analyze_logs to_datetime self raw =
      Raise (ValueError ("Missing required columns: " +:+ py_list_repr missing)) ∧
    returned (analyze_logs to_datetime self raw) = [].
Proof.
  intros (col & Hcol & Hnot)%Exists_exists.
  exists (filter (λ col, col ∉ raw_columns raw) required_columns).
  assert (parse_csv_logs to_datetime raw =
          Raise (ValueError (missing_columns_message
            (filter (λ col, col ∉ raw_columns raw) required_columns)))) as Hparse.
  { unfold parse_csv_logs.
    destruct (filter _ required_columns) as [|c l] eqn:Hmissing; [|done].
    assert (col ∈ filter (λ col, col ∉ raw_columns raw) required_columns) as Hin
      by by apply list_elem_of_filter.
    rewrite Hmissing in Hin. by apply elem_of_nil in Hin. }
  unfold analyze_logs. rewrite Hparse. split_and!; try done.
  intros c. rewrite list_elem_of_filter. tauto.
Qed.

Lemma missing_columns_rejected_witness :
  parse_csv_logs Time.iso_to_datetime no_protocol_frame =
    Raise (ValueError "Missing required columns: ['protocol']") ∧
  returned (analyze_logs Time.iso_to_datetime init no_protocol_frame) = [].
Proof.
  destruct (missing_columns_rejected Time.iso_to_datetime init no_protocol_frame)
    as (missing & _ & Hparse & _ & Hnone).
  - apply (bool_decide_unpack _). vm_compute. exact I.
  - split; [|exact Hnone]. vm_compute. reflexivity.
Defined.

(** ** The summary *)

Lemma breakdown_total_insert (threat_counts : gmap string nat) k n :
  threat_counts !! k = None →
  breakdown_total (<[k := n]> threat_counts) = (n + breakdown_total threat_counts)%nat.
Proof.
  intros Hk. unfold breakdown_total.
  rewrite map_fold_insert_L; [done| |done]. intros. lia.
Qed.

Lemma breakdown_total_increment (threat_counts : gmap string nat) k :
  breakdown_total (<[k := (default 0 (threat_counts !! k) + 1)%nat]> threat_counts)
  = S (breakdown_total threat_counts).
Proof.
  destruct (threat_counts !! k) as [n|] eqn:Hk; simpl.
  - rewrite <-insert_delete_eq.
    rewrite <-(insert_delete_id threat_counts k n Hk) at 2.
    rewrite !breakdown_total_insert by apply lookup_delete_eq. lia.
  - rewrite breakdown_total_insert by done. lia.
Qed.

Lemma foldl_tally threat_counts (source_ips : gset string) alerts :
  ∃ threat_counts',
    foldl tally (threat_counts, source_ips) alerts =
      (threat_counts', source_ips ∪ list_to_set (alert_source_ip <$> alerts)) ∧
    breakdown_total threat_counts' =
      (breakdown_total threat_counts + length alerts)%nat.
Proof.
  revert threat_counts source_ips.
  induction alerts as [|a alerts IH]; intros threat_counts source_ips.
  - exists threat_counts. cbn. split; [f_equal; set_solver|lia].
  - cbn [foldl tally].
    destruct (IH (<[threat_type a :=
                     (default 0 (threat_counts !! threat_type a) + 1)%nat]> threat_counts)
                 (source_ips ∪ {[alert_source_ip a]}))
      as (threat_counts' & -> & Htotal).
    exists threat_counts'. split.
    + f_equal. rewrite fmap_cons, list_to_set_cons. set_solver.
    + rewrite Htotal, breakdown_total_increment. cbn [length]. lia.
Qed.

Lemma list_to_set_unique (l : list string) :
  list_to_set (C := gset string) (unique l) = list_to_set l.
Proof. apply set_eq. intros x. by rewrite !elem_of_list_to_set, elem_of_unique. Qed.

(** C6. The summary counts every alert, counts the distinct source
    addresses of the alerts, and its breakdown adds up to the total. *)
Theorem summary_consistency now alerts :
  let summary := get_analysis_summary now alerts in
  total_alerts summary = length alerts ∧
  unique_source_ips summary =
    size (list_to_set (C := gset string) (alert_source_ip <$> alerts)) ∧
  unique_source_ips summary = length (unique (alert_source_ip <$> alerts)) ∧
  breakdown_total (threat_breakdown summary) = total_alerts summary.
Proof.
  unfold get_analysis_summary.
  destruct (foldl_tally ∅ ∅ alerts) as (threat_counts & -> & Htotal).
  cbn. rewrite union_empty_l_L. split_and!; [done|done| |].
  - rewrite <-list_to_set_unique. apply size_list_to_set, NoDup_unique.
  - rewrite Htotal. unfold breakdown_total. by rewrite map_fold_empty.
Qed.

(** ** Configuration values *)


(** ** The protocol rule *)

Lemma detect_unusual_protocols_app self df1 df2 :
  detect_unusual_protocols self (df1 ++ df2) =
  detect_unusual_protocols self df1 ++ detect_unusual_protocols self df2.
Proof. unfold detect_unusual_protocols. by rewrite filter_app, fmap_app. Qed.

(** ** The scenarios of the specification *)

(** Eleven rows of one address within 45 seconds: one high-frequency alert
    and nothing else. *)
Example eleven_rows_in_45_seconds :
  let alerts :=
    returned (analyze_logs Time.iso_to_datetime init
                (raw_frame (burst "10.0.0.5" noon 4 11))) in
  alerts = [high_frequency_alert init "10.0.0.5" noon 11 (sample_row "10.0.0.5" noon)] ∧
  total_alerts (get_analysis_summary noon alerts) = 1%nat ∧
  unique_source_ips (get_analysis_summary noon alerts) = 1%nat.
Proof. vm_compute. done. Qed.

(** One row to port 4444, protocol ICMP, 70000 bytes: three alerts, none of
    them for high frequency. *)
Example one_odd_row :
  analyze_logs Time.iso_to_datetime init (raw_frame [odd_row]) =
  Ok [suspicious_port_alert odd_row; unusual_protocol_alert odd_row;
      large_packet_alert 65536 odd_row].
Proof. vm_compute. reflexivity. Qed.

(** The packet rule at its boundary: 65536 bytes pass, 65537 do not. *)
Example packet_size_boundary :
  detect_large_packets init
    [{| timestamp := noon; source_ip := "10.0.0.5"; destination_ip := "10.0.0.1";
        port := 443; protocol := "TCP"; packet_size := 65536 |}] 65536 = [] ∧
  length (detect_large_packets init
    [{| timestamp := noon; source_ip := "10.0.0.5"; destination_ip := "10.0.0.1";
        port := 443; protocol := "TCP"; packet_size := 65537 |}] 65536) = 1%nat.
Proof. vm_compute. done. Qed.

(** * Further properties of the analyzer *)

(** ** The high-frequency rule, address by address *)

(** What the detector says about one address: nothing, when every window
    opened at one of its rows stays within the threshold; otherwise the alert
    of the first row, in ascending order, whose window goes over it. *)
Lemma alerts_for_cases self df ip alerts :
  0 ≤ time_window self →
  detect_high_frequency_connections self df = Ok alerts →
  (Forall (λ row, Z.of_nat (window_count self df ip (timestamp row))
                  ≤ connection_threshold self) (rows_of ip df) ∧
   alerts_for ip alerts = []) ∨
  (∃ i row,
     filter (λ r, source_ip r = ip) (sort_values df) !! i = Some row ∧
     connection_threshold self < Z.of_nat (window_count self df ip (timestamp row)) ∧
     Forall (λ y, Z.of_nat (window_count self df ip (timestamp y))
                  ≤ connection_threshold self)
            (take i (filter (λ r, source_ip r = ip) (sort_values df))) ∧
     alerts_for ip alerts =
       [high_frequency_alert self ip (timestamp row)
          (window_count self df ip (timestamp row)) row]).
Proof.
  intros HW Hdet.
  pose proof (detect_high_frequency_alerts_for _ _ ip _ Hdet) as Hfor.
  destruct (decide (Forall (λ row, Z.of_nat (window_count self df ip (timestamp row))
                                   ≤ connection_threshold self) (rows_of ip df)))
    as [Hquiet|Hloud].
  - left. split; [done|]. rewrite Hfor. case_decide; [done|].
    rewrite scan_source_none; [done|].
    intros row Hin Hsrc. rewrite Forall_forall in Hquiet.
    apply Hquiet. by apply list_elem_of_filter.
  - right. apply not_Forall_Exists in Hloud; [|apply _].
    apply Exists_exists in Hloud as (row & Hrow & Hover). simpl in Hover.
    assert (rows_of ip df ≠ []) as Hne
      by (intros Hnil; rewrite Hnil in Hrow; by apply elem_of_nil in Hrow).
    apply list_elem_of_filter in Hrow as [Hsrc Hin].
    assert (row ∈ filter (λ row, source_ip row = ip) (sort_values df)) as Hdata
      by by apply elem_of_ip_data.
    assert (over_threshold self (filter (λ row, source_ip row = ip) (sort_values df)) row)
      as Hover' by (apply over_threshold_window_count; lia).
    destruct (list_find_elem_of _ _ _ Hdata Hover') as [[i first] Hfind].
    apply list_find_Some in Hfind as (Hfirst & Hfirst_over & Hmin).
    apply over_threshold_window_count in Hfirst_over.
    assert (∀ j y, filter (λ row, source_ip row = ip) (sort_values df) !! j = Some y →
              (j < i)%nat →
              Z.of_nat (window_count self df ip (timestamp y))
              ≤ connection_threshold self) as Hmin'.
    { intros j y Hy Hlt. specialize (Hmin j y Hy Hlt).
      rewrite over_threshold_window_count in Hmin. lia. }
    exists i, first. split_and!; [done|done| |].
    + apply Forall_forall. intros y (j & Hj & Hlt)%elem_of_take. eauto.
    + rewrite Hfor, decide_False by done.
      by rewrite (scan_source_first self df ip i first).
Qed.

Lemma alerts_for_loud self df ip alerts row :
  0 ≤ time_window self →
  detect_high_frequency_connections self df = Ok alerts →
  row ∈ df → source_ip row = ip →
  connection_threshold self < Z.of_nat (window_count self df ip (timestamp row)) →
  length (alerts_for ip alerts) = 1%nat.
Proof.
  intros HW Hdet Hin Hsrc Hover.
  destruct (alerts_for_cases self df ip alerts HW Hdet)
    as [[Hquiet _]|(i & first & _ & _ & _ & ->)]; [|done].
  rewrite Forall_forall in Hquiet.
  assert (row ∈ rows_of ip df) as Hrow by by apply list_elem_of_filter.
  specialize (Hquiet row Hrow). simpl in Hquiet. lia.
Qed.

Lemma alerts_for_reported self df ip alerts :
  0 ≤ time_window self →
  detect_high_frequency_connections self df = Ok alerts →
  alerts_for ip alerts ≠ [] →
  ∃ row, row ∈ df ∧ source_ip row = ip ∧
    connection_threshold self < Z.of_nat (window_count self df ip (timestamp row)) ∧
    alerts_for ip alerts =
      [high_frequency_alert self ip (timestamp row)
         (window_count self df ip (timestamp row)) row].
Proof.
  intros HW Hdet Hne.
  destruct (alerts_for_cases self df ip alerts HW Hdet)
    as [[_ Hnil]|(i & row & Hrow & Hover & _ & Hfor)]; [done|].
  apply list_elem_of_lookup_2, elem_of_ip_data in Hrow as [Hin Hsrc]. eauto 10.
Qed.

Lemma length_filter_mono {A} (P Q : A → Prop) `{!∀ x, Decision (P x)}
    `{!∀ x, Decision (Q x)} (l : list A) :
  (∀ x, x ∈ l → P x → Q x) →
  (length (filter P l) ≤ length (filter Q l))%nat.
Proof.
  induction l as [|x l IH]; intros HPQ; [done|].
  assert (length (filter P l) ≤ length (filter Q l))%nat as Hl
    by (apply IH; intros y Hy; apply HPQ; by right).
  rewrite !filter_cons.
  destruct (decide (P x)) as [HP|], (decide (Q x)) as [|HQ]; simpl; try lia.
  destruct HQ. apply HPQ; [left|done].
Qed.

Lemma filter_sublist_mono {A} (P : A → Prop) `{!∀ x, Decision (P x)}
    (l1 l2 : list A) :
  l1 `sublist_of` l2 → filter P l1 `sublist_of` filter P l2.
Proof.
  induction 1 as [|x l1 l2 _ IH|x l1 l2 _ IH]; [constructor|..].
  - rewrite !filter_cons. case_decide; [by constructor|done].
  - rewrite filter_cons. case_decide; [by constructor|done].
Qed.

Lemma exists_min_timestamp (l : list Row) :
  l ≠ [] → ∃ r, r ∈ l ∧ ∀ x, x ∈ l → timestamp r ≤ timestamp x.
Proof.
  induction l as [|a l IH]; [done|]. intros _.
  destruct l as [|b l].
  - exists a. split; [left|]. intros x ->%list_elem_of_singleton. lia.
  - destruct IH as (r & Hr & Hmin); [done|].
    destruct (decide (timestamp a ≤ timestamp r)).
    + exists a. split; [left|]. intros x [->|Hx]%elem_of_cons; [lia|].
      specialize (Hmin x Hx). lia.
    + exists r. split; [by right|]. intros x [->|Hx]%elem_of_cons; [lia|].
      by apply Hmin.
Qed.

Lemma window_count_Permutation self df1 df2 ip t :
  df1 ≡ₚ df2 → window_count self df1 ip t = window_count self df2 ip t.
Proof. intros Hperm. unfold window_count. by rewrite Hperm. Qed.

Lemma window_count_sublist self df1 df2 ip t :
  df1 `sublist_of` df2 →
  (window_count self df1 ip t ≤ window_count self df2 ip t)%nat.
Proof.
  intros Hsub. unfold window_count.
  by apply sublist_length, filter_sublist_mono.
Qed.

Lemma ascending_lookup l i j a b :
  ascending l → l !! i = Some a → l !! j = Some b → (i ≤ j)%nat →
  timestamp a ≤ timestamp b.
Proof.
  intros Hasc Ha Hb Hij.
  destruct (decide (i = j)) as [->|Hne]; [by simplify_eq|].
  unfold ascending in Hasc. rewrite <-(take_drop_middle l i a Ha) in Hasc.
  apply StronglySorted_app_1_r, StronglySorted_inv in Hasc as [_ Hall].
  rewrite Forall_forall in Hall. apply Hall.
  apply list_elem_of_lookup. exists (j - S i)%nat.
  rewrite lookup_drop, <-Hb. f_equal. lia.
Qed.

(** ** The high-frequency rule: what raises an alert *)

(** A run of more than [connection_threshold] rows of one address inside any
    span of [time_window] seconds, wherever the span starts, raises the
    alert for that address: opening the windows at the rows loses nothing. *)
Theorem high_frequency_any_window self df ip t :
  0 ≤ time_window self →
  0 ≤ connection_threshold self →
  connection_threshold self < Z.of_nat (window_count self df ip t) →
  ∃ alerts,
    detect_high_frequency_connections self df = Ok alerts ∧
    length (alerts_for ip alerts) = 1%nat.
Proof.
  intros HW Hth Hover.
  destruct (detect_high_frequency_connections_total self df HW) as [alerts Hdet].
  exists alerts. split; [done|].
  set (span := filter (λ row, source_ip row = ip ∧ t ≤ timestamp row ∧
                              timestamp row ≤ t + time_window self) df).
  assert (span ≠ []) as Hne.
  { intros Hnil. unfold window_count in Hover. fold span in Hover.
    rewrite Hnil in Hover. simpl in Hover. lia. }
  destruct (exists_min_timestamp span Hne) as (r & Hr & Hmin).
  pose proof Hr as [(Hsrc & Hlo & Hhi) Hin]%list_elem_of_filter.
  apply (alerts_for_loud self df ip alerts r); [done..|].
  assert (window_count self df ip t ≤ window_count self df ip (timestamp r))%nat;
    [|lia].
  apply length_filter_mono. intros x Hx (Hxsrc & Hxlo & Hxhi).
  assert (x ∈ span) as Hxspan by by apply list_elem_of_filter.
  specialize (Hmin x Hxspan). split_and!; [done|lia|lia].
Qed.

Lemma high_frequency_any_window_witness :
  length (alerts_for "10.0.0.5"
    (returned (detect_high_frequency_connections init
                 (burst "10.0.0.5" noon 4 11)))) = 1%nat.
Proof.
  destruct (high_frequency_any_window init (burst "10.0.0.5" noon 4 11)
              "10.0.0.5" (noon - 7)) as (alerts & -> & Hone).
  - done.
  - done.
  - vm_compute. reflexivity.
  - exact Hone.
Defined.

(** Rows added to a batch, anywhere in it, never silence an alert. *)
Theorem high_frequency_more_rows self df1 df2 ip :
  0 ≤ time_window self →
  df1 `sublist_of` df2 →
  ∃ alerts1 alerts2,
    detect_high_frequency_connections self df1 = Ok alerts1 ∧
    detect_high_frequency_connections self df2 = Ok alerts2 ∧
    (alerts_for ip alerts1 ≠ [] → length (alerts_for ip alerts2) = 1%nat).
Proof.
  intros HW Hsub.
  destruct (detect_high_frequency_connections_total self df1 HW) as [alerts1 H1].
  destruct (detect_high_frequency_connections_total self df2 HW) as [alerts2 H2].
  exists alerts1, alerts2. split_and!; [done..|]. intros Hne.
  destruct (alerts_for_reported self df1 ip alerts1 HW H1 Hne)
    as (row & Hin & Hsrc & Hover & _).
  apply (alerts_for_loud self df2 ip alerts2 row); [done|done| |done|].
  - by apply (sublist_subseteq df1 df2).
  - pose proof (window_count_sublist self df1 df2 ip (timestamp row) Hsub). lia.
Qed.

Lemma high_frequency_more_rows_witness :
  length (alerts_for "10.0.0.9"
    (returned (detect_high_frequency_connections init late_burst))) = 1%nat.
Proof.
  destruct (high_frequency_more_rows init (burst "10.0.0.9" noon 4 11) late_burst
              "10.0.0.9") as (alerts1 & alerts2 & H1 & -> & Hkeep).
  - done.
  - unfold late_burst. apply sublist_inserts_l, sublist_inserts_r. done.
  - apply Hkeep. vm_compute in H1. injection H1 as <-. vm_compute. discriminate.
Defined.

(** Lowering the threshold, all else equal, never silences an alert. *)
Theorem high_frequency_lower_threshold self1 self2 df ip :
  0 ≤ time_window self1 →
  time_window self1 = time_window self2 →
  connection_threshold self1 ≤ connection_threshold self2 →
  ∃ alerts1 alerts2,
    detect_high_frequency_connections self1 df = Ok alerts1 ∧
    detect_high_frequency_connections self2 df = Ok alerts2 ∧
    (alerts_for ip alerts2 ≠ [] → length (alerts_for ip alerts1) = 1%nat).
Proof.
  intros HW HWeq Hth. assert (0 ≤ time_window self2) as HW2 by lia.
  destruct (detect_high_frequency_connections_total self1 df HW) as [alerts1 H1].
  destruct (detect_high_frequency_connections_total self2 df HW2) as [alerts2 H2].
  exists alerts1, alerts2. split_and!; [done..|]. intros Hne.
  destruct (alerts_for_reported self2 df ip alerts2 HW2 H2 Hne)
    as (row & Hin & Hsrc & Hover & _).
  apply (alerts_for_loud self1 df ip alerts1 row); [done..|].
  assert (window_count self1 df ip (timestamp row) =
          window_count self2 df ip (timestamp row)) as ->
    by (unfold window_count; by rewrite HWeq).
  lia.
Qed.

Lemma high_frequency_lower_threshold_witness :
  length (alerts_for "10.0.0.5"
    (returned (detect_high_frequency_connections
                 {| allowed_ports := {[22; 80; 443]};
                    connection_threshold := 5;
                    time_window := 60 |}
                 (burst "10.0.0.5" noon 4 11)))) = 1%nat.
Proof.
  destruct (high_frequency_lower_threshold
              {| allowed_ports := {[22; 80; 443]};
                 connection_threshold := 5;
                 time_window := 60 |}
              init (burst "10.0.0.5" noon 4 11) "10.0.0.5")
    as (alerts1 & alerts2 & -> & H2 & Hkeep).
  - done.
  - done.
  - done.
  - apply Hkeep. vm_compute in H2. injection H2 as <-. vm_compute. discriminate.
Defined.

(** ** The high-frequency rule and the order of the rows *)

Lemma first_loud_timestamp self df1 df2 ip i1 r1 r2 :
  df1 ≡ₚ df2 →
  filter (λ r, source_ip r = ip) (sort_values df1) !! i1 = Some r1 →
  Forall (λ y, Z.of_nat (window_count self df1 ip (timestamp y))
               ≤ connection_threshold self)
         (take i1 (filter (λ r, source_ip r = ip) (sort_values df1))) →
  r2 ∈ df2 → source_ip r2 = ip →
  connection_threshold self < Z.of_nat (window_count self df2 ip (timestamp r2)) →
  timestamp r1 ≤ timestamp r2.
Proof.
  intros Hperm Hr1 Hquiet Hin2 Hsrc2 Hover2.
  assert (r2 ∈ filter (λ r, source_ip r = ip) (sort_values df1)) as Hin1
    by (apply elem_of_ip_data; by rewrite Hperm).
  apply list_elem_of_lookup in Hin1 as [j Hj].
  destruct (decide (j < i1)%nat) as [Hlt|Hge].
  - rewrite Forall_forall in Hquiet.
    assert (r2 ∈ take i1 (filter (λ r, source_ip r = ip) (sort_values df1))) as Htake
      by (apply elem_of_take; eauto).
    specialize (Hquiet r2 Htake). simpl in Hquiet.
    rewrite (window_count_Permutation self df1 df2) in Hquiet by done. lia.
  - eapply (ascending_lookup _ i1 j); [apply ip_data_ascending|done|done|lia].
Qed.

(** Shuffling the rows of a batch changes neither which addresses are
    reported nor the time, the count and the wording of their alerts. *)
Theorem high_frequency_shuffle self df1 df2 ip :
  0 ≤ time_window self →
  df1 ≡ₚ df2 →
  ∃ alerts1 alerts2,
    detect_high_frequency_connections self df1 = Ok alerts1 ∧
    detect_high_frequency_connections self df2 = Ok alerts2 ∧
    alert_facts <$> alerts_for ip alerts1 = alert_facts <$> alerts_for ip alerts2.
Proof.
  intros HW Hperm.
  destruct (detect_high_frequency_connections_total self df1 HW) as [alerts1 H1].
  destruct (detect_high_frequency_connections_total self df2 HW) as [alerts2 H2].
  exists alerts1, alerts2. split_and!; [done..|].
  destruct (alerts_for_cases self df1 ip alerts1 HW H1)
    as [[Hquiet1 ->]|(i1 & r1 & Hr1 & Hover1 & Hbefore1 & ->)];
  destruct (alerts_for_cases self df2 ip alerts2 HW H2)
    as [[Hquiet2 ->]|(i2 & r2 & Hr2 & Hover2 & Hbefore2 & ->)]; [done|..].
  - apply list_elem_of_lookup_2, elem_of_ip_data in Hr2 as [Hin Hsrc].
    rewrite Forall_forall in Hquiet1.
    assert (r2 ∈ rows_of ip df1) as Hrow
      by (apply list_elem_of_filter; by rewrite Hperm).
    specialize (Hquiet1 r2 Hrow). simpl in Hquiet1.
    rewrite (window_count_Permutation self df1 df2) in Hquiet1 by done. lia.
  - apply list_elem_of_lookup_2, elem_of_ip_data in Hr1 as [Hin Hsrc].
    rewrite Forall_forall in Hquiet2.
    assert (r1 ∈ rows_of ip df2) as Hrow
      by (apply list_elem_of_filter; by rewrite <-Hperm).
    specialize (Hquiet2 r1 Hrow). simpl in Hquiet2.
    rewrite <-(window_count_Permutation self df1 df2) in Hquiet2 by done. lia.
  - assert (timestamp r1 = timestamp r2) as Heq.
    { pose proof Hr1 as [Hin1 Hsrc1]%list_elem_of_lookup_2%elem_of_ip_data.
      pose proof Hr2 as [Hin2 Hsrc2]%list_elem_of_lookup_2%elem_of_ip_data.
      pose proof (first_loud_timestamp self df1 df2 ip i1 r1 r2
                    Hperm Hr1 Hbefore1 Hin2 Hsrc2 Hover2).
      pose proof (first_loud_timestamp self df2 df1 ip i2 r2 r1
                    (symmetry Hperm) Hr2 Hbefore2 Hin1 Hsrc1 Hover1).
      lia. }
    cbn. unfold alert_facts. cbn. rewrite Heq.
    by rewrite (window_count_Permutation self df1 df2).
Qed.

Lemma high_frequency_shuffle_witness :
  alert_facts <$> alerts_for "10.0.0.5"
    (returned (detect_high_frequency_connections init late_burst)) =
  alert_facts <$> alerts_for "10.0.0.5"
    (returned (detect_high_frequency_connections init (reverse late_burst))).
Proof.
  destruct (high_frequency_shuffle init late_burst (reverse late_burst) "10.0.0.5")
    as (alerts1 & alerts2 & -> & -> & Hsame).
  - done.
  - apply (bool_decide_unpack _). vm_compute. exact I.
  - exact Hsame.
Defined.

(** ** The high-frequency rule with a negative window length *)

Lemma window_connections_negative self ip_data row :
  time_window self < 0 →
  window_connections self ip_data (timestamp row) = [].
Proof.
  intros HW. unfold window_connections. apply filter_none. intros x _. lia.
Qed.

Lemma scan_sources_quiet self df_sorted ips :
  (∀ ip, scan_source self df_sorted ip = Ok []) →
  scan_sources self df_sorted ips = Ok [].
Proof.
  intros Hquiet. induction ips as [|ip ips IH]; [done|].
  cbn [scan_sources]. by rewrite Hquiet, IH.
Qed.

(** With the window attribute set below zero no window holds a row: a
    threshold of zero or more then never reports anything, and a threshold
    below zero makes the detector fail with [IndexError] on every batch that
    has a row. *)
Theorem high_frequency_negative_window self df :
  time_window self < 0 →
  (0 ≤ connection_threshold self →
   detect_high_frequency_connections self df = Ok []) ∧
  (connection_threshold self < 0 → df ≠ [] →
   detect_high_frequency_connections self df = Raise IndexError).
Proof.
  intros HW. split.
  - intros Hth. apply scan_sources_quiet. intros ip.
    unfold scan_source. case_decide; [done|]. rewrite scan_windows_find.
    destruct (list_find _ _) as [[i row]|] eqn:Hfind; [|done].
    apply list_find_Some in Hfind as (_ & Hover & _).
    unfold over_threshold in Hover.
    rewrite window_connections_negative in Hover by done. simpl in Hover. lia.
  - intros Hth Hne. destruct df as [|row df]; [done|].
    unfold detect_high_frequency_connections.
    cbn [fmap list_fmap unique scan_sources].
    assert (scan_source self (sort_values (row :: df)) (source_ip row)
            = Raise IndexError) as ->; [|done].
    unfold scan_source. set (ip_data := filter _ _).
    rewrite decide_False by lia. rewrite scan_windows_find.
    assert (row ∈ ip_data) as Hrow by (apply elem_of_ip_data; split; [left|done]).
    assert (over_threshold self ip_data row) as Hover.
    { unfold over_threshold.
      rewrite window_connections_negative by done. simpl. lia. }
    destruct (list_find_elem_of _ _ _ Hrow Hover) as [[i first] ->].
    cbv zeta. by rewrite window_connections_negative.
Qed.

Lemma high_frequency_negative_window_witness :
  detect_high_frequency_connections
    {| allowed_ports := {[22; 80; 443]}; connection_threshold := 10;
       time_window := -60 |} (burst "10.0.0.5" noon 4 11) = Ok [] ∧
  detect_high_frequency_connections
    {| allowed_ports := {[22; 80; 443]}; connection_threshold := -1;
       time_window := -60 |} (burst "10.0.0.5" noon 4 11) = Raise IndexError.
Proof.
  split.
  - apply high_frequency_negative_window; done.
  - apply high_frequency_negative_window; done.
Defined.

(** ** The stateless rules: configuration and chunks *)

Lemma filter_sublist_impl {A} (P Q : A → Prop) `{!∀ x, Decision (P x)}
    `{!∀ x, Decision (Q x)} (l : list A) :
  (∀ x, P x → Q x) → filter P l `sublist_of` filter Q l.
Proof.
  intros HPQ. induction l as [|x l IH]; [done|].
  rewrite !filter_cons.
  destruct (decide (P x)) as [HP|], (decide (Q x)) as [|HQ];
    [by constructor|by destruct HQ; auto|by constructor|done].
Qed.

(** Allowing more ports only removes alerts of the port rule: what is left
    is, in the same order, part of what was reported before. *)
Theorem suspicious_ports_allowed self1 self2 df :
  allowed_ports self1 ⊆ allowed_ports self2 →
  detect_suspicious_ports self2 df `sublist_of` detect_suspicious_ports self1 df.
Proof.
  intros Hsub. unfold detect_suspicious_ports.
  apply fmap_sublist, filter_sublist_impl. set_solver.
Qed.

Lemma suspicious_ports_allowed_witness :
  detect_suspicious_ports
    {| allowed_ports := {[22; 80; 443; 4444]}; connection_threshold := 10;
       time_window := 60 |} [odd_row; negative_port_row]
  `sublist_of` detect_suspicious_ports init [odd_row; negative_port_row].
Proof.
  apply (suspicious_ports_allowed init).
  apply (bool_decide_unpack _). vm_compute. exact I.
Defined.

(** Raising the size threshold never adds a large-packet alert, and every
    alert stands for a row strictly above the threshold in use. *)
Theorem large_packets_threshold self df size1 size2 :
  size1 ≤ size2 →
  (length (detect_large_packets self df size2)
   ≤ length (detect_large_packets self df size1))%nat ∧
  (∀ a, a ∈ detect_large_packets self df size2 →
     ∃ row, row ∈ df ∧ size2 < packet_size row ∧ reports a row).
Proof.
  intros Hle. unfold detect_large_packets. split.
  - rewrite !length_fmap. apply length_filter_mono. intros; lia.
  - intros a (row & -> & [Hsize Hin]%list_elem_of_filter)%list_elem_of_fmap.
    exists row. by repeat split.
Qed.

Lemma large_packets_threshold_witness :
  (length (detect_large_packets init [odd_row; negative_port_row] 65536)
   ≤ length (detect_large_packets init [odd_row; negative_port_row] 100))%nat.
Proof.
  apply (large_packets_threshold init [odd_row; negative_port_row] 100 65536).
  done.
Defined.


(** ** The parser: which batches it accepts *)

Lemma convert_timestamps_Ok to_datetime rows :
  Forall (λ r, is_Some (to_datetime (raw_timestamp r))) rows →
  ∃ df, convert_timestamps to_datetime rows = Ok df.
Proof.
  induction 1 as [|r rows [t Ht] _ [df IH]]; [by eexists|].
  cbn [convert_timestamps]. unfold convert_row. rewrite Ht, IH. by eexists.
Qed.

Lemma parse_csv_logs_header to_datetime raw :
  required_columns ⊆ raw_columns raw →
  parse_csv_logs to_datetime raw = convert_timestamps to_datetime (raw_rows raw).
Proof.
  intros Hsub. unfold parse_csv_logs.
  rewrite filter_none; [done|]. intros col Hcol Hnot. by apply Hnot, Hsub.
Qed.

(** One timestamp cell that cannot be read fails the whole batch: with a full
    header the parser raises for the first such row and returns none of the
    rows before it. *)
Theorem parse_csv_logs_bad_timestamp to_datetime raw good bad rest :
  required_columns ⊆ raw_columns raw →
  raw_rows raw = good ++ bad :: rest →
  Forall (λ r, is_Some (to_datetime (raw_timestamp r))) good →
  to_datetime (raw_timestamp bad) = None →
  parse_csv_logs to_datetime raw = Raise (DateParseError (raw_timestamp bad)).
Proof.
  intros Hsub Hrows Hgood Hbad. rewrite parse_csv_logs_header, Hrows by done.
  clear Hrows. induction Hgood as [|r good [t Ht] _ IH]; cbn [convert_timestamps app].
  - unfold convert_row. by rewrite Hbad.
  - unfold convert_row at 1. rewrite Ht. cbn [bind]. by rewrite IH.
Qed.

Lemma parse_csv_logs_bad_timestamp_witness :
  parse_csv_logs Time.iso_to_datetime one_bad_cell_frame
  = Raise (DateParseError "yesterday").
Proof.
  apply (parse_csv_logs_bad_timestamp Time.iso_to_datetime one_bad_cell_frame
           [raw_of_row odd_row] unreadable_row [raw_of_row negative_port_row]).
  - done.
  - reflexivity.
  - apply (bool_decide_unpack _). vm_compute. exact I.
  - vm_compute. reflexivity.
Defined.

(** With a full header and no data rows the analysis returns no alert,
    whatever the configuration, and the summary of that is empty. *)
Theorem analyze_logs_empty_batch to_datetime self raw now :
  required_columns ⊆ raw_columns raw →
  raw_rows raw = [] →
  analyze_logs to_datetime self raw = Ok [] ∧
  total_alerts (get_analysis_summary now []) = 0%nat ∧
  unique_source_ips (get_analysis_summary now []) = 0%nat ∧
  threat_breakdown (get_analysis_summary now []) = ∅.
Proof.
  intros Hheader Hrows. split; [|done].
  unfold analyze_logs. rewrite parse_csv_logs_header, Hrows by done. done.
Qed.

Lemma analyze_logs_empty_batch_witness :
  analyze_logs Time.iso_to_datetime negative_threshold (raw_frame []) = Ok [].
Proof.
  apply (analyze_logs_empty_batch Time.iso_to_datetime negative_threshold
           (raw_frame []) noon); done.
Defined.

(** ** The summary: counts by threat type *)

Lemma foldl_tally_lookup t alerts (threat_counts : gmap string nat)
    (source_ips : gset string) :
  (foldl tally (threat_counts, source_ips) alerts).1 !! t =
  match threat_counts !! t with
  | Some n => Some (n + count_type t alerts)%nat
  | None => if decide (count_type t alerts = 0%nat) then None
            else Some (count_type t alerts)
  end.
Proof.
  revert threat_counts source_ips.
  induction alerts as [|a alerts IH]; intros threat_counts source_ips.
  - cbn. destruct (threat_counts !! t); [f_equal; lia|done].
  - cbn [foldl tally]. rewrite IH. unfold count_type. rewrite filter_cons.
    destruct (decide (threat_type a = t)) as [<-|Hne].
    + rewrite lookup_insert_eq. cbn [length].
      destruct (threat_counts !! threat_type a); simpl; [f_equal; lia|done].
    + by rewrite lookup_insert_ne.
Qed.

Lemma foldl_tally_sources alerts (threat_counts : gmap string nat)
    (source_ips : gset string) :
  (foldl tally (threat_counts, source_ips) alerts).2 =
  source_ips ∪ list_to_set (alert_source_ip <$> alerts).
Proof.
  by destruct (foldl_tally threat_counts source_ips alerts) as (m & -> & _).
Qed.

Lemma get_analysis_summary_fields now alerts :
  get_analysis_summary now alerts =
  {| total_alerts := length alerts;
     unique_source_ips := size (foldl tally (∅, ∅) alerts).2;
     threat_breakdown := (foldl tally (∅, ∅) alerts).1;
     analysis_timestamp := Time.strftime now |}.
Proof. unfold get_analysis_summary. by destruct (foldl tally (∅, ∅) alerts). Qed.

(** The breakdown holds, for each threat type that occurs among the alerts,
    the number of alerts of that type, and no entry for a type that does not
    occur. *)
Theorem summary_breakdown_counts now alerts t :
  threat_breakdown (get_analysis_summary now alerts) !! t =
  if decide (count_type t alerts = 0%nat) then None
  else Some (count_type t alerts).
Proof.
  rewrite get_analysis_summary_fields. cbn [threat_breakdown].
  by rewrite foldl_tally_lookup, lookup_empty.
Qed.

(** The summary does not depend on the order of the alerts. *)
Theorem summary_order_irrelevant now alerts1 alerts2 :
  alerts1 ≡ₚ alerts2 →
  get_analysis_summary now alerts1 = get_analysis_summary now alerts2.
Proof.
  intros Hperm. rewrite !get_analysis_summary_fields. f_equal.
  - by rewrite Hperm.
  - rewrite !foldl_tally_sources. do 2 f_equal.
    assert (alert_source_ip <$> alerts1 ≡ₚ alert_source_ip <$> alerts2) as Hsrc
      by by rewrite Hperm.
    apply set_eq. intros x. rewrite !elem_of_list_to_set. by rewrite Hsrc.
  - apply map_eq. intros t. rewrite !foldl_tally_lookup, lookup_empty.
    assert (count_type t alerts1 = count_type t alerts2) as ->; [|done].
    unfold count_type. by rewrite Hperm.
Qed.

Lemma summary_order_irrelevant_witness :
  get_analysis_summary noon
    [suspicious_port_alert odd_row; unusual_protocol_alert odd_row;
     large_packet_alert 65536 odd_row] =
  get_analysis_summary noon
    [large_packet_alert 65536 odd_row; unusual_protocol_alert odd_row;
     suspicious_port_alert odd_row].
Proof.
  apply summary_order_irrelevant.
  apply (bool_decide_unpack _). vm_compute. exact I.
Defined.

(** ** The orchestrator: what its alerts are *)

Lemma count_type_app t alerts1 alerts2 :
  count_type t (alerts1 ++ alerts2) =
  (count_type t alerts1 + count_type t alerts2)%nat.
Proof. unfold count_type. by rewrite filter_app, length_app. Qed.

Lemma count_type_all t alerts :
  Forall (λ a, threat_type a = t) alerts → count_type t alerts = length alerts.
Proof.
  intros Hall. unfold count_type. f_equal.
  induction Hall as [|a l Ha _ IH]; [done|]. by rewrite filter_cons_True, IH.
Qed.

Lemma count_type_none t t' alerts :
  t ≠ t' → Forall (λ a, threat_type a = t') alerts → count_type t alerts = 0%nat.
Proof.
  intros Hne Hall. unfold count_type.
  rewrite filter_none; [done|]. rewrite Forall_forall in Hall.
  intros a Ha Ht. apply Hall in Ha. congruence.
Qed.

(** Every alert of an analysis has one of the four threat types and carries
    the time, the address and the port of a row of the batch. *)
Theorem analyze_logs_alerts_report_rows to_datetime self raw df alerts :
  0 ≤ time_window self →
  parse_csv_logs to_datetime raw = Ok df →
  analyze_logs to_datetime self raw = Ok alerts →
  Forall (λ a, threat_type a ∈ threat_types ∧
               ∃ row, row ∈ df ∧ reports a row) alerts.
Proof.
  intros HW Hparse. unfold analyze_logs. rewrite Hparse. cbn [bind].
  destruct (detect_high_frequency_connections self df) as [freq|] eqn:Hfreq;
    [|done].
  cbn [bind]. intros [= <-].
  assert (∀ (P : Row → Prop) `{!∀ row, Decision (P row)} (alert_of : Row → Alert),
            (∀ row, threat_type (alert_of row) ∈ threat_types ∧
                    reports (alert_of row) row) →
            Forall (λ a, threat_type a ∈ threat_types ∧
                         ∃ row, row ∈ df ∧ reports a row)
                   (alert_of <$> filter P df)) as Hstateless.
  { intros P ? alert_of Hok. apply Forall_fmap, Forall_forall.
    intros row [_ Hin]%list_elem_of_filter. destruct (Hok row). simpl. eauto. }
  repeat apply Forall_app_2.
  - apply Hstateless. intros row. split; [set_solver|done].
  - apply Forall_forall. intros a Ha.
    assert (alerts_for (alert_source_ip a) freq ≠ []) as Hne.
    { intros Hnil.
      assert (a ∈ alerts_for (alert_source_ip a) freq) as Hin
        by by apply list_elem_of_filter.
      rewrite Hnil in Hin. by apply elem_of_nil in Hin. }
    destruct (alerts_for_reported self df _ freq HW Hfreq Hne)
      as (row & Hin & Hsrc & _ & Hfor).
    assert (a ∈ alerts_for (alert_source_ip a) freq) as Ha'
      by by apply list_elem_of_filter.
    rewrite Hfor in Ha'. apply list_elem_of_singleton in Ha'.
    split.
    + rewrite Ha'. set_solver.
    + exists row. split; [done|].
      split_and!; [by rewrite Ha'|done|by rewrite Ha'].
  - apply Hstateless. intros row. split; [set_solver|done].
  - apply Hstateless. intros row. split; [set_solver|done].
Qed.

Lemma analyze_logs_alerts_report_rows_witness :
  Forall (λ a, threat_type a ∈ threat_types ∧
               ∃ row, row ∈ odd_row :: late_burst ∧ reports a row)
    (returned (analyze_logs Time.iso_to_datetime init
                 (raw_frame (odd_row :: late_burst)))).
Proof.
  destruct (analyze_logs Time.iso_to_datetime init
              (raw_frame (odd_row :: late_burst))) as [alerts|] eqn:Hrun;
    [|constructor].
  apply (analyze_logs_alerts_report_rows Time.iso_to_datetime init
           (raw_frame (odd_row :: late_burst))).
  - done.
  - vm_compute. reflexivity.
  - exact Hrun.
Defined.

(** The summary of an analysis counts, under each threat type, the alerts
    that the rule of that type raised. *)
Theorem analyze_logs_summary_by_rule to_datetime self raw df freq alerts now :
  parse_csv_logs to_datetime raw = Ok df →
  detect_high_frequency_connections self df = Ok freq →
  analyze_logs to_datetime self raw = Ok alerts →
  count_type "Suspicious Port" alerts = length (detect_suspicious_ports self df) ∧
  count_type "High Frequency Connection" alerts = length freq ∧
  count_type "Unusual Protocol" alerts = length (detect_unusual_protocols self df) ∧
  count_type "Large Packet" alerts = length (detect_large_packets self df 65536) ∧
  total_alerts (get_analysis_summary now alerts) =
    (length (detect_suspicious_ports self df) + length freq +
     length (detect_unusual_protocols self df) +
     length (detect_large_packets self df 65536))%nat.
Proof.
  intros Hparse Hfreq. unfold analyze_logs. rewrite Hparse. cbn [bind].
  rewrite Hfreq. cbn [bind]. intros [= <-].
  pose proof (detect_high_frequency_threat_type self df freq Hfreq) as Hhf.
  assert (Forall (λ a, threat_type a = "Suspicious Port")
            (detect_suspicious_ports self df)) as Hports
    by by apply Forall_fmap_const.
  assert (Forall (λ a, threat_type a = "Unusual Protocol")
            (detect_unusual_protocols self df)) as Hprotos
    by by apply Forall_fmap_const.
  assert (Forall (λ a, threat_type a = "Large Packet")
            (detect_large_packets self df 65536)) as Hpackets
    by by apply Forall_fmap_const.
  rewrite get_analysis_summary_fields. cbn [total_alerts].
  rewrite !count_type_app, !length_app.
  split_and!; [..|lia].
  - rewrite (count_type_all _ _ Hports),
      (count_type_none "Suspicious Port" "High Frequency Connection" freq),
      (count_type_none "Suspicious Port" "Unusual Protocol" (detect_unusual_protocols self df)),
      (count_type_none "Suspicious Port" "Large Packet" (detect_large_packets self df 65536)); [lia|done..].
  - rewrite (count_type_all _ _ Hhf),
      (count_type_none "High Frequency Connection" "Suspicious Port" (detect_suspicious_ports self df)),
      (count_type_none "High Frequency Connection" "Unusual Protocol" (detect_unusual_protocols self df)),
      (count_type_none "High Frequency Connection" "Large Packet" (detect_large_packets self df 65536)); [lia|done..].
  - rewrite (count_type_all _ _ Hprotos),
      (count_type_none "Unusual Protocol" "Suspicious Port" (detect_suspicious_ports self df)),
      (count_type_none "Unusual Protocol" "High Frequency Connection" freq),
      (count_type_none "Unusual Protocol" "Large Packet" (detect_large_packets self df 65536)); [lia|done..].
  - rewrite (count_type_all _ _ Hpackets),
      (count_type_none "Large Packet" "Suspicious Port" (detect_suspicious_ports self df)),
      (count_type_none "Large Packet" "High Frequency Connection" freq),
      (count_type_none "Large Packet" "Unusual Protocol" (detect_unusual_protocols self df)); [lia|done..].
Qed.

Lemma analyze_logs_summary_by_rule_witness :
  total_alerts (get_analysis_summary noon
    (returned (analyze_logs Time.iso_to_datetime init
                 (raw_frame (odd_row :: late_burst))))) = 5%nat.
Proof.
  destruct (analyze_logs Time.iso_to_datetime init
              (raw_frame (odd_row :: late_burst))) as [alerts|] eqn:Hrun;
    [|by vm_compute in Hrun].
  destruct (detect_high_frequency_connections init (odd_row :: late_burst))
    as [freq|] eqn:Hfreq; [|by vm_compute in Hfreq].
  destruct (analyze_logs_summary_by_rule Time.iso_to_datetime init
              (raw_frame (odd_row :: late_burst)) (odd_row :: late_burst)
              freq alerts noon) as (_ & _ & _ & _ & Htotal).
  - vm_compute. reflexivity.
  - exact Hfreq.
  - exact Hrun.
  - cbn [returned]. rewrite Htotal.
    vm_compute in Hfreq. injection Hfreq as <-. vm_compute. reflexivity.
Defined.

(** ** The upload endpoint *)

Section EndpointFacts.

Variable to_datetime : string → option Z.
Variable Database : Type.
Variable insert_alert : Database → Alert → Database * App.Insertion.

Lemma store_alerts_count db alerts stored_count db' stored :
  App.store_alerts Database insert_alert db alerts stored_count = (db', inr stored) →
  (stored_count ≤ stored ≤ stored_count + length alerts)%nat.
Proof.
  revert db stored_count.
  induction alerts as [|alert alerts IH]; intros db stored_count; simpl.
  - intros [= _ <-]. lia.
  - destruct (insert_alert db alert) as [db'' [[|]|error]]; [| |done].
    + intros Hrest%IH. lia.
    + intros Hrest%IH. lia.
Qed.

(** An upload that the endpoint turns down, or whose analysis fails, leaves
    the database as it was: no row is written before the whole analysis has
    returned.  (Only an exception that leaves [insert_alert] itself can end
    in an error answer after rows were stored.) *)
Theorem endpoint_failure_stores_nothing now db file db' response :
  App.analyze_logs to_datetime Database insert_alert now db file = (db', response) →
  (∀ generated stored summary, response ≠ App.Analysed generated stored summary) →
  (∀ error, response ≠ App.StorageError error) →
  db' = db.
Proof.
  unfold App.analyze_logs. intros Hrun Hfail Hstore.
  destruct file as [file|]; [|by simplify_eq].
  case_decide; [by simplify_eq|].
  destruct (negb _); [by simplify_eq|].
  destruct (analyze_logs _ _ _) as [alerts|e]; [|by simplify_eq].
  destruct (App.store_alerts _ _ _ _ _) as [db'' [error|stored]]; simplify_eq.
  - by destruct (Hstore error).
  - by destruct (Hfail (length alerts) stored (get_analysis_summary now alerts)).
Qed.

(** A successful answer belongs to a file whose name ends in [.csv] and whose
    header has the six required columns; it reports as generated the number
    of alerts that the summary counts, and as stored no more than that. *)
Theorem endpoint_success now db file db' generated stored summary :
  App.analyze_logs to_datetime Database insert_alert now db (Some file)
    = (db', App.Analysed generated stored summary) →
  App.endswith (App.filename file) ".csv" = true ∧
  required_columns ⊆ raw_columns (App.stream file) ∧
  generated = total_alerts summary ∧
  breakdown_total (threat_breakdown summary) = generated ∧
  (stored ≤ generated)%nat.
Proof.
  unfold App.analyze_logs. intros Hrun.
  case_decide; [by simplify_eq|].
  destruct (App.endswith _ _) eqn:Hcsv; [|by simplify_eq]. cbn [negb] in Hrun.
  destruct (analyze_logs _ _ _) as [alerts|e] eqn:Halerts; [|by simplify_eq].
  destruct (App.store_alerts _ _ _ _ _) as [db'' [error|stored']] eqn:Hstored;
    [by simplify_eq|].
  apply store_alerts_count in Hstored. simplify_eq.
  rewrite get_analysis_summary_fields. cbn [total_alerts threat_breakdown].
  split_and!; [done| |done| |lia].
  - unfold analyze_logs in Halerts.
    destruct (parse_csv_logs to_datetime (App.stream file)) as [df|] eqn:Hparse;
      [|done].
    apply parse_csv_logs_Ok in Hparse as [Hnone _].
    intros col Hcol.
    destruct (decide (col ∈ raw_columns (App.stream file))) as [|Hnot]; [done|].
    assert (col ∈ filter (λ col, col ∉ raw_columns (App.stream file))
                         required_columns) as Hin
      by by apply list_elem_of_filter.
    rewrite Hnone in Hin. by apply elem_of_nil in Hin.
  - destruct (foldl_tally ∅ ∅ alerts) as (m & Hfold & Htotal).
    rewrite Hfold. cbn [fst]. rewrite Htotal.
    unfold breakdown_total. by rewrite map_fold_empty.
Qed.

(** A file with a good name but a header that lacks a required column is
    answered with the parser's error, and nothing is stored. *)
Theorem endpoint_missing_columns now db file :
  App.filename file ≠ "" →
  App.endswith (App.filename file) ".csv" = true →
  Exists (λ col, col ∉ raw_columns (App.stream file)) required_columns →
  App.analyze_logs to_datetime Database insert_alert now db (Some file) =
  (db, App.ServerError (ValueError (missing_columns_message
         (filter (λ col, col ∉ raw_columns (App.stream file)) required_columns)))).
Proof.
  intros Hname Hcsv (col & Hcol & Hnot)%Exists_exists.
  unfold App.analyze_logs. rewrite decide_False by done. rewrite Hcsv. cbn [negb].
  unfold analyze_logs, parse_csv_logs.
  destruct (filter _ required_columns) as [|c l] eqn:Hmissing; [|done].
  assert (col ∈ filter (λ col, col ∉ raw_columns (App.stream file))
                       required_columns) as Hin
    by by apply list_elem_of_filter.
  rewrite Hmissing in Hin. by apply elem_of_nil in Hin.
Qed.

End EndpointFacts.

Lemma endpoint_failure_stores_nothing_witness :
  (App.analyze_logs Time.iso_to_datetime (list Alert) list_insert_alert noon []
     (Some capitals_upload)).1 = [].
Proof.
  destruct (App.analyze_logs Time.iso_to_datetime (list Alert) list_insert_alert
              noon [] (Some capitals_upload)) as [db' response] eqn:Hrun.
  apply (endpoint_failure_stores_nothing Time.iso_to_datetime (list Alert)
           list_insert_alert noon [] _ db' response Hrun).
  - intros generated stored summary ->. vm_compute in Hrun. discriminate.
  - intros error ->. vm_compute in Hrun. discriminate.
Defined.

(** A row whose port does not fit 64 bits makes the insert raise: the
    endpoint answers with an error although the alert before it is stored. *)
Example storage_error_after_a_stored_row :
  App.analyze_logs Time.iso_to_datetime (list Alert) bounded_insert_alert noon []
    (Some {| App.filename := "logs.csv";
             App.stream := raw_frame [odd_row; huge_port_row] |}) =
  ([suspicious_port_alert odd_row],
   App.StorageError "Python int too large to convert to SQLite INTEGER").
Proof. vm_compute. reflexivity. Qed.

Lemma endpoint_success_witness :
  App.endswith (App.filename sample_upload) ".csv" = true ∧
  required_columns ⊆ raw_columns (App.stream sample_upload) ∧
  breakdown_total (threat_breakdown (get_analysis_summary noon
    [suspicious_port_alert odd_row; unusual_protocol_alert odd_row;
     large_packet_alert 65536 odd_row])) = 3%nat.
Proof.
  destruct (endpoint_success Time.iso_to_datetime (list Alert) list_insert_alert
              noon [] sample_upload
              [large_packet_alert 65536 odd_row; unusual_protocol_alert odd_row;
               suspicious_port_alert odd_row]
              3 3
              (get_analysis_summary noon
                 [suspicious_port_alert odd_row; unusual_protocol_alert odd_row;
                  large_packet_alert 65536 odd_row]))
    as (Hname & Hheader & _ & Htotal & _).
  - vm_compute. reflexivity.
  - split_and!; [exact Hname|exact Hheader|exact Htotal].
Defined.

Lemma endpoint_missing_columns_witness :
  App.analyze_logs Time.iso_to_datetime (list Alert) list_insert_alert noon []
    (Some {| App.filename := "logs.csv"; App.stream := no_protocol_frame |}) =
  ([], App.ServerError (ValueError "Missing required columns: ['protocol']")).
Proof.
  rewrite endpoint_missing_columns.
  - vm_compute. reflexivity.
  - done.
  - vm_compute. reflexivity.
  - apply (bool_decide_unpack _). vm_compute. exact I.
Defined.

(** ** The statistics and the summary *)

Lemma stats_breakdown_fold (recent_alerts : list App.StoredAlert)
    (alerts : list Alert) (m : gmap string nat) (source_ips : gset string) :
  App.stored_threat_type <$> recent_alerts = threat_type <$> alerts →
  foldl (λ (threat_breakdown : gmap string nat) alert,
           <[App.stored_threat_type alert :=
               (default 0 (threat_breakdown !! App.stored_threat_type alert) + 1)%nat]>
             threat_breakdown) m recent_alerts =
  (foldl tally (m, source_ips) alerts).1.
Proof.
  revert alerts m source_ips.
  induction recent_alerts as [|stored recent_alerts IH];
    intros [|a alerts] m source_ips Htypes; try done.
  injection Htypes as Ht Htypes. cbn [foldl tally]. rewrite Ht.
  by apply IH.
Qed.

(** The breakdown of the dashboard statistics adds up to the number of recent
    alerts, and for stored rows with the threat types of a list of alerts
    it is the breakdown of the summary of those alerts. *)
Theorem stats_breakdown_agrees hourly_data recent_alerts now alerts :
  App.stored_threat_type <$> recent_alerts = threat_type <$> alerts →
  App.stats_threat_breakdown (App.get_alert_stats hourly_data recent_alerts) =
    threat_breakdown (get_analysis_summary now alerts) ∧
  breakdown_total
    (App.stats_threat_breakdown (App.get_alert_stats hourly_data recent_alerts))
  = App.total_recent_alerts (App.get_alert_stats hourly_data recent_alerts).
Proof.
  intros Htypes.
  assert (App.stats_threat_breakdown (App.get_alert_stats hourly_data recent_alerts)
          = threat_breakdown (get_analysis_summary now alerts)) as Heq.
  { rewrite get_analysis_summary_fields. cbn [threat_breakdown].
    unfold App.get_alert_stats. cbn [App.stats_threat_breakdown].
    by apply stats_breakdown_fold. }
  split; [done|]. rewrite Heq, get_analysis_summary_fields.
  cbn [threat_breakdown App.get_alert_stats App.total_recent_alerts].
  destruct (foldl_tally ∅ ∅ alerts) as (m & Hfold & Htotal).
  rewrite Hfold. cbn [fst]. rewrite Htotal.
  unfold breakdown_total. rewrite map_fold_empty.
  apply (f_equal length) in Htypes. rewrite !length_fmap in Htypes. lia.
Qed.

Lemma stats_breakdown_agrees_witness :
  App.stats_threat_breakdown
    (App.get_alert_stats []
       [{| App.id := 1; App.stored_timestamp := "2024-01-01 12:00:00";
           App.stored_source_ip := "192.168.1.100"; App.stored_port := 4444;
           App.stored_threat_type := "Suspicious Port";
           App.stored_description := "Connection to non-standard port detected";
           App.created_at := "2024-01-01 12:00:05" |}]) =
  threat_breakdown (get_analysis_summary noon [suspicious_port_alert odd_row]).
Proof.
  apply stats_breakdown_agrees. reflexivity.
Defined.

(** ** The validation script and the parser *)

(** The script accepts the sample log exactly when the file can be read to
    the end and the parser would not reject its header: the two checks of
    the required columns agree, and the number of data rows plays no part.
    A file whose rows cannot be read is turned down whatever its header. *)
Theorem validate_sample_csv_agrees to_datetime names :
  (∀ n,
     Validate.validate_sample_csv
       (Some {| Validate.fieldnames := Some names;
                Validate.data_rows := Some n |}) = true ↔
     ∀ rows msg,
       parse_csv_logs to_datetime {| raw_columns := names; raw_rows := rows |}
       ≠ Raise (ValueError msg)) ∧
  Validate.validate_sample_csv
    (Some {| Validate.fieldnames := Some names;
             Validate.data_rows := None |}) = false.
Proof.
  unfold Validate.validate_sample_csv, parse_csv_logs.
  cbn [Validate.fieldnames Validate.data_rows raw_columns raw_rows].
  destruct (filter (λ col, col ∉ names) required_columns) as [|c l] eqn:Hmissing.
  - split; [|done]. intros n. split; [|done]. intros _ rows msg.
    induction rows as [|r rows IH]; [done|]. cbn [convert_timestamps].
    unfold convert_row. destruct (to_datetime (raw_timestamp r)); [|done].
    cbn [bind]. by destruct (convert_timestamps to_datetime rows).
  - split; [|done]. intros n. split; [done|]. intros Hnever.
    by destruct (Hnever [] (missing_columns_message (c :: l))).
Qed.

Lemma validate_sample_csv_agrees_witness :
  Validate.validate_sample_csv
    (Some {| Validate.fieldnames := Some ("flags" :: required_columns);
             Validate.data_rows := Some 0%nat |}) = true ∧
  match parse_csv_logs Time.iso_to_datetime
          {| raw_columns := "flags" :: required_columns;
             raw_rows := [unreadable_row] |} with
  | Raise (ValueError _) => False
  | _ => True
  end.
Proof.
  split; [vm_compute; reflexivity|].
  pose proof (proj1 (proj1 (validate_sample_csv_agrees Time.iso_to_datetime
                              ("flags" :: required_columns)) 0%nat) eq_refl
                [unreadable_row]) as Hnever.
  destruct (parse_csv_logs _ _) as [df|[msg|cell|]]; [done| |done|done].
  by destruct (Hnever msg).
Defined.

(** ** The validation script and the requirements file *)

Lemma contains_spec text pattern :
  Validate.contains text pattern = true ↔
  ∃ before after, text = before ++ pattern ++ after.
Proof.
  induction text as [|c text IH]; cbn [Validate.contains].
  - rewrite orb_false_r, bool_decide_eq_true. split.
    + intros [after Hafter]. by exists [], after.
    + intros (before & after & Heq). symmetry in Heq.
      apply app_eq_nil in Heq as [-> [-> ->]%app_eq_nil]. by exists [].
  - rewrite orb_true_iff, bool_decide_eq_true, IH. split.
    + intros [[after ->]|(before & after & ->)].
      * by exists [], after.
      * by exists (c :: before), after.
    + intros ([|c' before] & after & Heq).
      * left. exists after. by rewrite Heq.
      * right. injection Heq as -> ->. by exists before, after.
Qed.

Lemma contains_prefix text pattern1 pattern2 :
  pattern1 `prefix_of` pattern2 →
  Validate.contains text pattern2 = true →
  Validate.contains text pattern1 = true.
Proof.
  intros [rest ->]. rewrite !contains_spec.
  intros (before & after & ->). exists before, (rest ++ after).
  by rewrite <-!app_assoc.
Qed.

(** The script's check of the requirements comes down to two of its three
    packages: a text that names [flask-cors] passes the test for [flask]
    with it, so the script accepts exactly the texts in which [pandas] and
    [flask-cors] occur. *)
Theorem validate_backend_dependencies_flask requirements :
  Validate.validate_backend_dependencies (Some requirements) = true ↔
  Validate.contains (String.list_ascii_of_string requirements)
                    (String.list_ascii_of_string "pandas") = true ∧
  Validate.contains (String.list_ascii_of_string requirements)
                    (String.list_ascii_of_string "flask-cors") = true.
Proof.
  unfold Validate.validate_backend_dependencies, Validate.required_packages.
  set (text := String.list_ascii_of_string requirements).
  assert (Validate.contains text (String.list_ascii_of_string "flask-cors") = true →
          Validate.contains text (String.list_ascii_of_string "flask") = true)
    as Hflask.
  { apply contains_prefix. by exists (String.list_ascii_of_string "-cors"). }
  rewrite !filter_cons, filter_nil.
  destruct (Validate.contains text (String.list_ascii_of_string "flask-cors"))
    eqn:Hcors.
  - rewrite (Hflask eq_refl).
    destruct (Validate.contains text (String.list_ascii_of_string "pandas"));
      repeat case_decide; try done; split; try done; by intros [? ?].
  - destruct (Validate.contains text (String.list_ascii_of_string "flask")),
      (Validate.contains text (String.list_ascii_of_string "pandas"));
      repeat case_decide; try done; split; try done; by intros [? ?].
Qed.

Lemma validate_backend_dependencies_flask_witness :
  Validate.validate_backend_dependencies
    (Some "pandas==2.1.0
flask-cors==4.0.0") = true.
Proof.
  apply validate_backend_dependencies_flask. split; vm_compute; reflexivity.
Defined.

(** * Properties that hold whatever the library calls choose *)

(** ** Any ascending order of the rows *)

Lemma sort_values_sorts : sorts_by_timestamp sort_values.
Proof. intros df. split; [apply sort_values_Permutation|apply sort_values_ascending]. Qed.

(** The rules as defined with [sort_values] and [upper] are the general ones
    at these two functions. *)
Lemma detect_high_frequency_connections_general self df :
  detect_high_frequency_connections self df =
  General.detect_high_frequency_connections sort_values self df.
Proof. reflexivity. Qed.

Lemma detect_unusual_protocols_general self df :
  detect_unusual_protocols self df =
  General.detect_unusual_protocols upper self df.
Proof. reflexivity. Qed.

Lemma cutoff_sort_sorts : sorts_by_timestamp cutoff_sort.
Proof.
  intros df. unfold cutoff_sort. case_decide; split.
  - apply sort_values_Permutation.
  - apply sort_values_ascending.
  - by rewrite sort_values_Permutation, reverse_Permutation.
  - apply sort_values_ascending.
Qed.

Lemma window_count_rows_of self df ip t :
  window_count self df ip t =
  length (filter (λ row, t ≤ timestamp row ∧ timestamp row ≤ t + time_window self)
                 (rows_of ip df)).
Proof.
  unfold window_count, rows_of. rewrite list_filter_filter.
  f_equal. apply list_filter_iff. tauto.
Qed.

Section AnyOrder.

Variable sort : DataFrame → DataFrame.
Hypothesis Hsort : sorts_by_timestamp sort.

Lemma any_length_window_connections self df ip t :
  length (window_connections self (filter (λ row, source_ip row = ip) (sort df)) t)
  = window_count self df ip t.
Proof.
  unfold window_connections, window_count.
  rewrite list_filter_filter, (proj1 (Hsort df)).
  f_equal. apply list_filter_iff. tauto.
Qed.

Lemma any_over_threshold_window_count self df ip row :
  over_threshold self (filter (λ row, source_ip row = ip) (sort df)) row ↔
  connection_threshold self < Z.of_nat (window_count self df ip (timestamp row)).
Proof. unfold over_threshold. by rewrite any_length_window_connections. Qed.

Lemma any_elem_of_ip_data df ip row :
  row ∈ filter (λ row, source_ip row = ip) (sort df) ↔
  row ∈ df ∧ source_ip row = ip.
Proof. rewrite list_elem_of_filter, (proj1 (Hsort df)). tauto. Qed.

Lemma any_ip_data_ascending df ip :
  ascending (filter (λ row, source_ip row = ip) (sort df)).
Proof. eapply StronglySorted_filter_impl; [|apply Hsort]. auto. Qed.

Lemma any_scan_source_none self df ip :
  (∀ row, row ∈ df → source_ip row = ip →
     Z.of_nat (window_count self df ip (timestamp row)) ≤ connection_threshold self) →
  scan_source self (sort df) ip = Ok [].
Proof.
  intros Hall. unfold scan_source. case_decide; [done|].
  rewrite scan_windows_find.
  destruct (list_find _ _) as [[i row]|] eqn:Hfind; [|done].
  apply list_find_Some in Hfind as (Hrow & Hover & _).
  apply list_elem_of_lookup_2, any_elem_of_ip_data in Hrow as [Hin Hsrc].
  apply any_over_threshold_window_count in Hover.
  specialize (Hall row Hin Hsrc). lia.
Qed.

Lemma any_scan_source_first self df ip i row :
  0 ≤ time_window self →
  filter (λ row, source_ip row = ip) (sort df) !! i = Some row →
  connection_threshold self < Z.of_nat (window_count self df ip (timestamp row)) →
  (∀ j y, filter (λ row, source_ip row = ip) (sort df) !! j = Some y →
     (j < i)%nat →
     Z.of_nat (window_count self df ip (timestamp y)) ≤ connection_threshold self) →
  head (window_connections self (filter (λ row, source_ip row = ip) (sort df))
          (timestamp row)) = Some row ∧
  scan_source self (sort df) ip =
  Ok [high_frequency_alert self ip (timestamp row)
        (window_count self df ip (timestamp row)) row].
Proof.
  intros HW Hrow Hover Hmin. unfold scan_source.
  set (ip_data := filter _ (sort df)) in *.
  apply any_over_threshold_window_count in Hover. fold ip_data in Hover.
  assert (∀ j y, ip_data !! j = Some y → (j < i)%nat →
            ¬ over_threshold self ip_data y) as Hmin'.
  { intros j y Hy Hlt Hy'%any_over_threshold_window_count.
    specialize (Hmin j y Hy Hlt). lia. }
  pose proof (window_head self ip_data i row HW (any_ip_data_ascending df ip)
                Hrow Hover Hmin') as Hhead.
  split; [done|].
  rewrite decide_False.
  2:{ pose proof (length_window_le self ip_data (timestamp row)).
      unfold over_threshold in Hover. lia. }
  rewrite scan_windows_find.
  rewrite (proj2 (list_find_Some _ ip_data i row)) by done. cbv zeta.
  unfold ip_data at 2. rewrite any_length_window_connections. fold ip_data.
  by destruct (window_connections self ip_data (timestamp row));
    simplify_eq/=.
Qed.

Lemma any_detect_total self df :
  0 ≤ time_window self →
  ∃ alerts, General.detect_high_frequency_connections sort self df = Ok alerts.
Proof. intros. by apply scan_sources_total. Qed.

Lemma any_alerts_for self df ip alerts :
  General.detect_high_frequency_connections sort self df = Ok alerts →
  alerts_for ip alerts =
  if decide (rows_of ip df = []) then []
  else returned (scan_source self (sort df) ip).
Proof.
  intros Hdet. unfold General.detect_high_frequency_connections in Hdet.
  rewrite (scan_sources_alerts_for _ _ _ ip _ (NoDup_unique _) Hdet).
  assert (ip ∈ unique (source_ip <$> df) ↔ rows_of ip df ≠ []) as Hiff.
  { rewrite elem_of_unique, list_elem_of_fmap. unfold rows_of. split.
    - intros (row & -> & Hin) Hnil.
      assert (row ∈ filter (λ row0, source_ip row0 = source_ip row) df) as Hrow
        by by apply list_elem_of_filter.
      rewrite Hnil in Hrow. by apply elem_of_nil in Hrow.
    - intros Hne. destruct (filter _ df) as [|row l] eqn:Hf; [done|].
      assert (row ∈ filter (λ row, source_ip row = ip) df) as Hin
        by (rewrite Hf; left).
      apply list_elem_of_filter in Hin as [? ?]. eauto. }
  destruct (decide (rows_of ip df = [])), (decide (ip ∈ _));
    first [done | exfalso; tauto].
Qed.

(** What the detector says about one address, under any ascending order. *)
Lemma any_alerts_for_cases self df ip alerts :
  0 ≤ time_window self →
  General.detect_high_frequency_connections sort self df = Ok alerts →
  (Forall (λ row, Z.of_nat (window_count self df ip (timestamp row))
                  ≤ connection_threshold self) (rows_of ip df) ∧
   alerts_for ip alerts = []) ∨
  (∃ i row,
     filter (λ r, source_ip r = ip) (sort df) !! i = Some row ∧
     connection_threshold self < Z.of_nat (window_count self df ip (timestamp row)) ∧
     Forall (λ y, Z.of_nat (window_count self df ip (timestamp y))
                  ≤ connection_threshold self)
            (take i (filter (λ r, source_ip r = ip) (sort df))) ∧
     alerts_for ip alerts =
       [high_frequency_alert self ip (timestamp row)
          (window_count self df ip (timestamp row)) row]).
Proof.
  intros HW Hdet.
  pose proof (any_alerts_for _ _ ip _ Hdet) as Hfor.
  destruct (decide (Forall (λ row, Z.of_nat (window_count self df ip (timestamp row))
                                   ≤ connection_threshold self) (rows_of ip df)))
    as [Hquiet|Hloud].
  - left. split; [done|]. rewrite Hfor. case_decide; [done|].
    rewrite any_scan_source_none; [done|].
    intros row Hin Hsrc. rewrite Forall_forall in Hquiet.
    apply Hquiet. by apply list_elem_of_filter.
  - right. apply not_Forall_Exists in Hloud; [|apply _].
    apply Exists_exists in Hloud as (row & Hrow & Hover). simpl in Hover.
    assert (rows_of ip df ≠ []) as Hne
      by (intros Hnil; rewrite Hnil in Hrow; by apply elem_of_nil in Hrow).
    apply list_elem_of_filter in Hrow as [Hsrc Hin].
    assert (row ∈ filter (λ row, source_ip row = ip) (sort df)) as Hdata
      by by apply any_elem_of_ip_data.
    assert (over_threshold self (filter (λ row, source_ip row = ip) (sort df)) row)
      as Hover' by (apply any_over_threshold_window_count; lia).
    destruct (list_find_elem_of _ _ _ Hdata Hover') as [[i first] Hfind].
    apply list_find_Some in Hfind as (Hfirst & Hfirst_over & Hmin).
    apply any_over_threshold_window_count in Hfirst_over.
    assert (∀ j y, filter (λ row, source_ip row = ip) (sort df) !! j = Some y →
              (j < i)%nat →
              Z.of_nat (window_count self df ip (timestamp y))
              ≤ connection_threshold self) as Hmin'.
    { intros j y Hy Hlt. specialize (Hmin j y Hy Hlt).
      rewrite any_over_threshold_window_count in Hmin. lia. }
    exists i, first. split_and!; [done|done| |].
    + apply Forall_forall. intros y (j & Hj & Hlt)%elem_of_take. eauto.
    + rewrite Hfor, decide_False by done.
      by rewrite (proj2 (any_scan_source_first self df ip i first HW Hfirst
                           Hfirst_over Hmin')).
Qed.

(** The first row over the threshold is, in time, before every other one. *)
Lemma any_first_loud_le self df ip i r1 r2 :
  filter (λ r, source_ip r = ip) (sort df) !! i = Some r1 →
  Forall (λ y, Z.of_nat (window_count self df ip (timestamp y))
               ≤ connection_threshold self)
         (take i (filter (λ r, source_ip r = ip) (sort df))) →
  r2 ∈ df → source_ip r2 = ip →
  connection_threshold self < Z.of_nat (window_count self df ip (timestamp r2)) →
  timestamp r1 ≤ timestamp r2.
Proof.
  intros Hr1 Hquiet Hin Hsrc Hover.
  assert (r2 ∈ filter (λ r, source_ip r = ip) (sort df)) as Hdata
    by by apply any_elem_of_ip_data.
  apply list_elem_of_lookup in Hdata as [j Hj].
  destruct (decide (j < i)%nat) as [Hlt|Hge].
  - rewrite Forall_forall in Hquiet.
    assert (r2 ∈ take i (filter (λ r, source_ip r = ip) (sort df))) as Htake
      by (apply elem_of_take; eauto).
    specialize (Hquiet r2 Htake). simpl in Hquiet. lia.
  - eapply (ascending_lookup _ i j); [apply any_ip_data_ascending|done|done|lia].
Qed.

End AnyOrder.

(** ** The first window, under any ascending order *)

(** C2. Scanning the rows of one address in ascending timestamp order,
    whichever way rows of equal timestamps are ordered, the first row whose
    window (both ends included) holds more rows than the threshold yields
    the only alert for that address: stamped with that row's time, carrying
    the port of the first row of the window (which is that row), and
    describing the count and the threshold. *)
Theorem first_window_alert sort self df ip i row :
  sorts_by_timestamp sort →
  0 ≤ time_window self →
  filter (λ r, source_ip r = ip) (sort df) !! i = Some row →
  connection_threshold self < Z.of_nat (window_count self df ip (timestamp row)) →
  Forall (λ y, Z.of_nat (window_count self df ip (timestamp y))
               ≤ connection_threshold self)
         (take i (filter (λ r, source_ip r = ip) (sort df))) →
  ∃ alerts first,
    General.detect_high_frequency_connections sort self df = Ok alerts ∧
    head (window_connections self
            (filter (λ r, source_ip r = ip) (sort df)) (timestamp row))
      = Some first ∧
    first = row ∧
    alerts_for ip alerts =
    [ {| alert_timestamp := Time.strftime (timestamp row);
         alert_source_ip := ip;
         alert_port := port first;
         threat_type := "High Frequency Connection";
         description :=
           "IP " +:+ ip +:+ " made " +:+
           pretty (window_count self df ip (timestamp row)) +:+
           " connections in 1 minute (threshold: " +:+
           pretty (connection_threshold self) +:+ ")" |} ].
Proof.
  intros Hsort HW Hrow Hover Hbefore.
  destruct (any_detect_total sort self df HW) as [alerts Hdet].
  exists alerts, row. split; [done|].
  assert (∀ j y, filter (λ r, source_ip r = ip) (sort df) !! j = Some y →
            (j < i)%nat →
            Z.of_nat (window_count self df ip (timestamp y))
            ≤ connection_threshold self) as Hmin.
  { intros j y Hy Hlt. rewrite Forall_forall in Hbefore. apply Hbefore.
    apply elem_of_take. eauto. }
  destruct (any_scan_source_first sort Hsort self df ip i row HW Hrow Hover Hmin)
    as [Hhead Hscan].
  split_and!; [done|done|].
  rewrite (any_alerts_for sort _ _ ip _ Hdet).
  rewrite decide_False.
  2:{ intros Hnil.
      apply list_elem_of_lookup_2, (any_elem_of_ip_data sort Hsort) in Hrow
        as [Hin Hsrc].
      assert (row ∈ rows_of ip df) as Hrows by by apply list_elem_of_filter.
      rewrite Hnil in Hrows. by apply elem_of_nil in Hrows. }
  by rewrite Hscan.
Qed.

(** Twenty-five rows, eleven of them tied: in the order of [cutoff_sort] the
    window opens with the row to port 1010, and that is the port reported. *)
Lemma first_window_alert_witness :
  alerts_for "10.0.0.9"
    (returned (General.detect_high_frequency_connections cutoff_sort init
                 tied_burst_and_others)) =
  [ {| alert_timestamp := "2024-01-01 12:00:00";
       alert_source_ip := "10.0.0.9";
       alert_port := 1010;
       threat_type := "High Frequency Connection";
       description :=
         "IP 10.0.0.9 made 11 connections in 1 minute (threshold: 10)" |} ].
Proof.
  destruct (first_window_alert cutoff_sort init tied_burst_and_others
              "10.0.0.9" 0 (tied_row 10))
    as (alerts & first & Hdet & _ & Hfirst & Hfor).
  - apply cutoff_sort_sorts.
  - done.
  - vm_compute. reflexivity.
  - vm_compute. reflexivity.
  - constructor.
  - rewrite Hdet. cbn [returned]. rewrite Hfor, Hfirst. vm_compute. reflexivity.
Defined.

(** ** One scan per address, under any ascending order *)

(** C9, as the specification words it, fails where rows of one address share
    a timestamp: in the order of [cutoff_sort] the rows of [10.0.0.9] are
    the same in both batches, yet its alert carries port 1000 in the one and
    port 1010 in the other, which has fourteen rows of another address
    more. *)
Lemma isolation_fails_on_tied_rows :
  sorts_by_timestamp cutoff_sort ∧
  rows_of "10.0.0.9" tied_burst = rows_of "10.0.0.9" tied_burst_and_others ∧
  alert_port <$> alerts_for "10.0.0.9"
    (returned (General.detect_high_frequency_connections cutoff_sort init
                 tied_burst)) = [1000] ∧
  alert_port <$> alerts_for "10.0.0.9"
    (returned (General.detect_high_frequency_connections cutoff_sort init
                 tied_burst_and_others)) = [1010] ∧
  alerts_for "10.0.0.9"
    (returned (General.detect_high_frequency_connections cutoff_sort init
                 tied_burst)) ≠
  alerts_for "10.0.0.9"
    (returned (General.detect_high_frequency_connections cutoff_sort init
                 tied_burst_and_others)).
Proof.
  split_and!; [apply cutoff_sort_sorts|vm_compute; reflexivity..|].
  vm_compute. discriminate.
Qed.

(** C9, amended. Two batches that hold the same rows for an address
    (whatever else they hold) give, under any ascending order, alerts for
    that address that agree in number, timestamp, threat type and
    description; the port of such an alert is that of one of the address's
    rows at the reported time, and the alerts agree in the port too when the
    rows of the address that share a timestamp share the port. *)
Theorem high_frequency_source_isolation sort self df1 df2 ip :
  sorts_by_timestamp sort →
  0 ≤ time_window self →
  rows_of ip df1 = rows_of ip df2 →
  ∃ alerts1 alerts2,
    General.detect_high_frequency_connections sort self df1 = Ok alerts1 ∧
    General.detect_high_frequency_connections sort self df2 = Ok alerts2 ∧
    alert_facts <$> alerts_for ip alerts1 = alert_facts <$> alerts_for ip alerts2 ∧
    Forall (λ a, ∃ row, row ∈ rows_of ip df1 ∧ reports a row)
           (alerts_for ip alerts1 ++ alerts_for ip alerts2) ∧
    (ties_share_port (rows_of ip df1) →
     alerts_for ip alerts1 = alerts_for ip alerts2).
Proof.
  intros Hsort HW Hsame.
  destruct (any_detect_total sort self df1 HW) as [alerts1 H1].
  destruct (any_detect_total sort self df2 HW) as [alerts2 H2].
  exists alerts1, alerts2. split_and!; [done..| | |].
  all: assert (∀ t, window_count self df1 ip t = window_count self df2 ip t)
         as Hcount by (intros t; by rewrite !window_count_rows_of, Hsame).
  all: destruct (any_alerts_for_cases sort Hsort self df1 ip alerts1 HW H1)
         as [[Hquiet1 ->]|(i1 & r1 & Hr1 & Hover1 & Hbefore1 & ->)];
       destruct (any_alerts_for_cases sort Hsort self df2 ip alerts2 HW H2)
         as [[Hquiet2 ->]|(i2 & r2 & Hr2 & Hover2 & Hbefore2 & ->)].
  all: try (pose proof Hr1 as [Hin1 Hsrc1]%list_elem_of_lookup_2%(any_elem_of_ip_data sort Hsort)).
  all: try (pose proof Hr2 as [Hin2 Hsrc2]%list_elem_of_lookup_2%(any_elem_of_ip_data sort Hsort)).
  all: try (assert (r1 ∈ rows_of ip df1) as Hrow1 by by apply list_elem_of_filter).
  all: try (assert (r2 ∈ rows_of ip df2) as Hrow2 by by apply list_elem_of_filter).
  all: try (assert (r1 ∈ rows_of ip df2) as Hrow12 by by rewrite <-Hsame).
  all: try (assert (r2 ∈ rows_of ip df1) as Hrow21 by by rewrite Hsame).
  (* a quiet batch against a loud one: the loud row is quiet in the other *)
  all: try (exfalso; rewrite Forall_forall in Hquiet1;
            specialize (Hquiet1 r2 Hrow21); simpl in Hquiet1;
            rewrite Hcount in Hquiet1; lia).
  all: try (exfalso; rewrite Forall_forall in Hquiet2;
            specialize (Hquiet2 r1 Hrow12); simpl in Hquiet2;
            rewrite <-Hcount in Hquiet2; lia).
  all: try done.
  all: try (by constructor).
  all: assert (timestamp r1 = timestamp r2) as Heq.
  1,3,5: apply list_elem_of_filter in Hrow12 as [_ Hin12];
         apply list_elem_of_filter in Hrow21 as [_ Hin21];
         pose proof (any_first_loud_le sort Hsort self df1 ip i1 r1 r2
                       Hr1 Hbefore1 Hin21 Hsrc2 ltac:(rewrite Hcount; lia));
         pose proof (any_first_loud_le sort Hsort self df2 ip i2 r2 r1
                       Hr2 Hbefore2 Hin12 Hsrc1 ltac:(rewrite <-Hcount; lia));
         lia.
  - cbn. unfold alert_facts. cbn. by rewrite Heq, Hcount.
  - repeat constructor.
    + exists r1. by repeat split.
    + exists r2. by repeat split.
  - intros Hties. rewrite Heq, Hcount. unfold high_frequency_alert.
    by rewrite (Hties r1 r2 Hrow1 Hrow21 Heq).
Qed.

Lemma high_frequency_source_isolation_witness :
  alert_facts <$> alerts_for "10.0.0.9"
    (returned (General.detect_high_frequency_connections cutoff_sort init
                 tied_burst)) =
  alert_facts <$> alerts_for "10.0.0.9"
    (returned (General.detect_high_frequency_connections cutoff_sort init
                 tied_burst_and_others)).
Proof.
  destruct (high_frequency_source_isolation cutoff_sort init
              tied_burst tied_burst_and_others "10.0.0.9")
    as (alerts1 & alerts2 & -> & -> & Hsame & _).
  - apply cutoff_sort_sorts.
  - done.
  - vm_compute. reflexivity.
  - exact Hsame.
Defined.

(** ** Configuration values that the specification calls invalid *)




(** ** The protocol rule, whatever [str.upper] does beyond ASCII *)

Lemma long_s_upper_uppercases : uppercases_ascii long_s_upper.
Proof.
  intros s. unfold ascii_only.
  induction s as [|c rest IH]; [done|].
  cbn [String.list_ascii_of_string]. intros [Hc Hrest]%Forall_cons.
  cbn [long_s_upper upper]. destruct rest as [|c' rest'].
  - done.
  - rewrite decide_False by lia. f_equal. by apply IH.
Qed.

(** C8. The protocol rule compares in upper case: its alerts are, in input
    order, one alert of type Unusual Protocol for each record whose
    upper-cased protocol is none of TCP, UDP, HTTP and HTTPS, carrying the
    record's time, address, port and protocol as written; a batch whose
    protocols all upper-case to a known one raises none, and the spellings
    tcp, TCP and Tcp are known. *)
Theorem unusual_protocols_case_insensitive str_upper self df :
  General.detect_unusual_protocols str_upper self df =
    (λ row, {| alert_timestamp := Time.strftime (timestamp row);
               alert_source_ip := source_ip row;
               alert_port := port row;
               threat_type := "Unusual Protocol";
               description :=
                 "Unusual protocol '" +:+ protocol row +:+
                 "' detected from " +:+ source_ip row |})
    <$> filter (λ row, str_upper (protocol row) ∉ ["TCP"; "UDP"; "HTTP"; "HTTPS"]) df ∧
  (Forall (λ row, str_upper (protocol row) ∈ ["TCP"; "UDP"; "HTTP"; "HTTPS"]) df →
   General.detect_unusual_protocols str_upper self df = []) ∧
  (uppercases_ascii str_upper →
   Forall (λ row, protocol row ∈ ["tcp"; "TCP"; "Tcp"]) df →
   General.detect_unusual_protocols str_upper self df = []).
Proof.
  assert (Forall (λ row, str_upper (protocol row) ∈ ["TCP"; "UDP"; "HTTP"; "HTTPS"]) df →
          General.detect_unusual_protocols str_upper self df = []) as Hknown.
  { intros Hall. unfold General.detect_unusual_protocols, common_protocols.
    induction Hall as [|row rows Hrow _ IH]; [done|].
    by rewrite filter_cons_False by tauto. }
  split_and!; [done|done|].
  intros Hupper Hall. apply Hknown.
  eapply Forall_impl; [exact Hall|]. intros row Hrow. cbn beta in Hrow.
  rewrite Hupper.
  - set_unfold. destruct Hrow as [->|[->|[->|[]]]]; vm_compute; tauto.
  - set_unfold. destruct Hrow as [->|[->|[->|[]]]]; repeat constructor.
Qed.

(** With an upper-casing that knows the long s, [httpſ] is HTTPS and raises
    no alert; [icmp] does. *)
Lemma unusual_protocols_case_insensitive_witness :
  General.detect_unusual_protocols long_s_upper init
    [protocol_row "tcp"; protocol_row "httpſ"; protocol_row "icmp";
     protocol_row "Tcp"] =
  [ {| alert_timestamp := "2024-01-01 12:00:00";
       alert_source_ip := "10.0.0.5";
       alert_port := 443;
       threat_type := "Unusual Protocol";
       description := "Unusual protocol 'icmp' detected from 10.0.0.5" |} ] ∧
  General.detect_unusual_protocols long_s_upper init
    [protocol_row "tcp"; protocol_row "TCP"; protocol_row "Tcp"] = [].
Proof.
  split.
  - destruct (unusual_protocols_case_insensitive long_s_upper init
                [protocol_row "tcp"; protocol_row "httpſ"; protocol_row "icmp";
                 protocol_row "Tcp"]) as [-> _].
    vm_compute. reflexivity.
  - destruct (unusual_protocols_case_insensitive long_s_upper init
                [protocol_row "tcp"; protocol_row "TCP"; protocol_row "Tcp"])
      as (_ & _ & Hspellings).
    apply Hspellings; [apply long_s_upper_uppercases|].
    repeat constructor; set_solver.
Defined.

(** ** The records of a parsed frame *)

Lemma reference_to_datetime_length cells out :
  General.reference_to_datetime cells = Ok out → length out = length cells.
Proof.
  revert out. induction cells as [|cell cells IH]; intros out; cbn.
  - by intros [= <-].
  - destruct (match cell with
              | General.Int z => Ok (General.Timestamp (z / 1000000000))
              | General.Str s =>
                  match Time.iso_to_datetime s with
                  | Some t => Ok (General.Timestamp t)
                  | None => Raise (DateParseError s)
                  end
              | General.NaN => Ok General.NaT
              end) as [first|]; [|done].
    destruct (General.reference_to_datetime cells) as [rest|]; [|done].
    cbn. intros [= <-]. cbn. f_equal. by apply IH.
Qed.

(** C4, as the specification words it, fails on three frames that the
    parser returns: a row whose port cell reads [-1] is returned with that
    port, a row whose timestamp cell is empty is returned with [NaT] for a
    timestamp, and a row whose port cell reads [http] is returned with that
    text for a port.  None of the three records meets the invariant. *)
Lemma parser_returns_unchecked_records :
  let parse := General.parse_csv_logs General.reference_to_datetime
                 required_columns in
  let stamp := General.Str "2024-01-01 12:00:00" in
  (∃ record,
     parse [frame_row stamp (General.Int (-1))] = Ok [record] ∧
     General.timestamp_cell record = General.Timestamp noon ∧
     General.port_cell record = General.Int (-1) ∧
     ¬ General.ConnectionRecord_invariant record) ∧
  (∃ first record,
     parse [frame_row stamp (General.Int 443);
            frame_row General.NaN (General.Int 443)] = Ok [first; record] ∧
     General.timestamp_cell record = General.NaT ∧
     ¬ General.ConnectionRecord_invariant record) ∧
  (∃ record,
     parse [frame_row stamp (General.Str "http")] = Ok [record] ∧
     General.port_cell record = General.Str "http" ∧
     ¬ General.ConnectionRecord_invariant record).
Proof.
  cbv zeta. split_and!.
  - eexists. split_and!; [vm_compute; reflexivity|done|done|].
    intros (_ & _ & _ & (z & [= <-] & Hz) & _). lia.
  - eexists _, _. split_and!; [vm_compute; reflexivity|done|].
    intros ((t & Ht) & _). discriminate Ht.
  - eexists. split_and!; [vm_compute; reflexivity|done|].
    intros (_ & _ & _ & (z & Hz & _) & _). discriminate Hz.
Qed.

(** C4, amended. When the parser returns, the header holds the six required
    columns and the returned records are the rows of the frame in input
    order: the timestamp of each is what the conversion of the timestamp
    column gives for its row (a time point or [NaT]), and its other five
    fields are the row's cells as read, of whatever type and sign. *)
Theorem parse_csv_logs_records to_datetime columns rows df :
  (∀ cells out, to_datetime cells = Ok out → length out = length cells) →
  General.parse_csv_logs to_datetime columns rows = Ok df →
  required_columns ⊆ columns ∧
  to_datetime (General.timestamp_cell <$> rows)
    = Ok (General.timestamp_cell <$> df) ∧
  Forall2 (λ record row,
             General.source_ip_cell record = General.source_ip_cell row ∧
             General.destination_ip_cell record = General.destination_ip_cell row ∧
             General.port_cell record = General.port_cell row ∧
             General.protocol_cell record = General.protocol_cell row ∧
             General.packet_size_cell record = General.packet_size_cell row)
          df rows.
Proof.
  intros Hlen. unfold General.parse_csv_logs.
  destruct (filter (λ col, col ∉ columns) required_columns) as [|col cols] eqn:Hmissing;
    [|done].
  destruct (to_datetime (General.timestamp_cell <$> rows)) as [converted|] eqn:Hconv;
    [|done].
  cbn. intros [= <-]. apply Hlen in Hconv. rewrite length_fmap in Hconv.
  split_and!.
  - intros col Hcol. destruct (decide (col ∈ columns)) as [|Hnot]; [done|].
    assert (col ∈ filter (λ col, col ∉ columns) required_columns) as Hin
      by by apply list_elem_of_filter.
    rewrite Hmissing in Hin. by apply elem_of_nil in Hin.
  - f_equal. clear Hmissing. revert converted Hconv.
    induction rows as [|row rows IH]; intros [|t converted]; try done.
    cbn. intros [= Hconv]. f_equal. by apply IH.
  - clear Hmissing. revert converted Hconv.
    induction rows as [|row rows IH]; intros [|t converted]; try done.
    cbn. intros [= Hconv]. constructor; [done|]. by apply IH.
Qed.

Lemma parse_csv_logs_records_witness :
  General.timestamp_cell <$>
    returned (General.parse_csv_logs General.reference_to_datetime
                required_columns
                [frame_row (General.Str "2024-01-01 12:00:00") (General.Int (-1));
                 frame_row General.NaN (General.Int 443)])
  = [General.Timestamp noon; General.NaT].
Proof.
  destruct (General.parse_csv_logs General.reference_to_datetime
              required_columns
              [frame_row (General.Str "2024-01-01 12:00:00") (General.Int (-1));
               frame_row General.NaN (General.Int 443)]) as [df|] eqn:Hparse;
    [|by vm_compute in Hparse].
  destruct (parse_csv_logs_records General.reference_to_datetime
              required_columns _ df reference_to_datetime_length Hparse)
    as (_ & Hconv & _).
  cbn [returned].
  cut (Ok [General.Timestamp noon; General.NaT]
       = Ok (General.timestamp_cell <$> df)); [by intros [= <-]|].
  rewrite <-Hconv. vm_compute. reflexivity.
Defined.

(** ** When the parser returns *)

(** [parse_csv_logs] returns a frame exactly when the header holds the six
    required columns (in any order, among any others) and the conversion of
    the timestamp column, taken as a whole, returns. *)
Theorem parse_csv_logs_accepts to_datetime columns rows :
  (∃ df, General.parse_csv_logs to_datetime columns rows = Ok df) ↔
  required_columns ⊆ columns ∧
  ∃ converted, to_datetime (General.timestamp_cell <$> rows) = Ok converted.
Proof.
  unfold General.parse_csv_logs. split.
  - intros [df Hparse].
    destruct (filter (λ col, col ∉ columns) required_columns) as [|col cols]
      eqn:Hmissing; [|done].
    split.
    + intros col Hcol. destruct (decide (col ∈ columns)) as [|Hnot]; [done|].
      assert (col ∈ filter (λ col, col ∉ columns) required_columns) as Hin
        by by apply list_elem_of_filter.
      rewrite Hmissing in Hin. by apply elem_of_nil in Hin.
    + destruct (to_datetime _) as [converted|]; [by eexists|done].
  - intros [Hsub [converted Hconv]].
    rewrite filter_none.
    + rewrite Hconv. by eexists.
    + intros col Hcol Hnot. by apply Hnot, Hsub.
Qed.

Lemma parse_csv_logs_accepts_witness :
  ∃ df, General.parse_csv_logs General.reference_to_datetime
          ("note" :: reverse required_columns)
          [frame_row General.NaN (General.Int 443)] = Ok df.
Proof.
  apply parse_csv_logs_accepts. split.
  - apply (bool_decide_unpack _). vm_compute. exact I.
  - eexists. vm_compute. reflexivity.
Defined.
